(** * Front-end of the board-meeting application: model and properties

    A shallow embedding of the React pages [MeetingDetail.tsx] and
    [AdminSettings.tsx], of the expertise chips of [OpinionCard.tsx], of
    the auth store and the axios interceptor that the pages go through,
    of the data interfaces of [types/index.ts], and of the JavaScript
    built-ins they rely on
    ([parseInt], [String.prototype.trim], truthiness of [||] and [&&],
    in-place [Array.prototype.reverse]).

    Conventions.
    - A JS [number] that the pages only use as an integer (version numbers,
      token ceilings, milliseconds, array lengths) is a [Z]; [NaN] is the
      [None] of an [option Z].
    - An optional field [f?: T] is an [option T]; [undefined] and [null]
      are [None].
    - A React state cell is a field of the record [State]; a handler is the
      list of setter calls, toasts and requests it performs, in program
      order, and [run] applies the setter calls to a [State].
    - The outcome of an awaited request is an argument of the handler;
      the handler waits for it between the [Send] of the request and the
      action that follows.  The page as a transition system runs the two
      parts of such a handler as two events, so that timer ticks, clicks
      and other answers come in between. *)

From Stdlib Require Import ZArith QArith Lia Ascii String Sorted.
From Stdlib Require Import Numbers.DecimalString Numbers.DecimalPos.
From stdpp Require Import base gmap sets list strings.

Local Open Scope string_scope.
Local Open Scope Z_scope.

(* ===================================================================== *)
(** * JavaScript built-ins                                                *)
(* ===================================================================== *)

Module Js.

(** Truthiness of a string: every string but the empty one. *)
Definition truthy_string (s : string) : bool :=
  match s with
  | EmptyString => false
  | String _ _ => true
  end.

(** Truthiness of a number: every number but [0] (and [NaN], which the
    integer model does not contain). *)
Definition truthy_number (n : Z) : bool := negb (n =? 0).

(** [a || b] for an optional string [a]. *)
Definition or_string (a : option string) (b : string) : string :=
  match a with
  | Some s => if truthy_string s then s else b
  | None => b
  end.

(** [a || b] for an optional number [a]. *)
Definition or_number (a : option Z) (b : Z) : Z :=
  match a with
  | Some n => if truthy_number n then n else b
  | None => b
  end.

(** [a || b] for an optional array or object [a]: an array is truthy
    even when it is empty. *)
Definition or_object {A} (a : option A) (b : A) : A :=
  match a with
  | Some x => x
  | None => b
  end.

(** [arr.length] as a number. *)
Definition array_length {A} (l : list A) : Z := Z.of_nat (length l).

(** [n.toString()] for an integer-valued number. *)
Definition toString (n : Z) : string :=
  NilEmpty.string_of_int (Z.to_int n).

(** White space and line terminators that [trim] and [parseInt] skip;
    the code units above U+00FF (U+1680, U+2000..U+200A, U+2028, U+2029,
    U+202F, U+205F, U+3000, U+FEFF) have no counterpart in an 8-bit
    [ascii] and are outside the model. *)
Definition isStrWhiteSpaceChar (c : ascii) : bool :=
  let n := nat_of_ascii c in
  (n =? 9)%nat || (n =? 10)%nat || (n =? 11)%nat || (n =? 12)%nat
  || (n =? 13)%nat || (n =? 32)%nat || (n =? 160)%nat.

Fixpoint trimStart (s : string) : string :=
  match s with
  | EmptyString => EmptyString
  | String c s' => if isStrWhiteSpaceChar c then trimStart s' else s
  end.

Fixpoint string_rev_onto (s acc : string) : string :=
  match s with
  | EmptyString => acc
  | String c s' => string_rev_onto s' (String c acc)
  end.

Definition string_rev (s : string) : string := string_rev_onto s EmptyString.

Definition trimEnd (s : string) : string :=
  string_rev (trimStart (string_rev s)).

(** [s.trim()]. *)
Definition trim (s : string) : string := trimEnd (trimStart s).

(** Value of a code unit as a digit: [0-9] are 0..9, [a-z] and [A-Z]
    are 10..35. *)
Definition digitValue (c : ascii) : option Z :=
  let n := Z.of_nat (nat_of_ascii c) in
  if (48 <=? n) && (n <=? 57) then Some (n - 48)
  else if (97 <=? n) && (n <=? 122) then Some (n - 87)
  else if (65 <=? n) && (n <=? 90) then Some (n - 55)
  else None.

Definition radixDigit (R : Z) (c : ascii) : option Z :=
  match digitValue c with
  | Some d => if d <? R then Some d else None
  | None => None
  end.

(** Value of the longest prefix of radix-[R] digits, read after [acc]. *)
Fixpoint radixPrefix (R : Z) (s : string) (acc : Z) : Z :=
  match s with
  | EmptyString => acc
  | String c s' =>
      match radixDigit R c with
      | Some d => radixPrefix R s' (acc * R + d)
      | None => acc
      end
  end.

(** The digits step of [parseInt]: [NaN] when the first code unit is not
    a radix-[R] digit. *)
Definition parseDigits (R : Z) (s : string) : option Z :=
  match s with
  | EmptyString => None
  | String c _ =>
      match radixDigit R c with
      | Some _ => Some (radixPrefix R s 0)
      | None => None
      end
  end.

(** The sign step of [parseInt]: the sign and the rest of the string. *)
Definition splitSign (s : string) : Z * string :=
  match s with
  | String "-" r => (-1, r)
  | String "+" r => (1, r)
  | _ => (1, s)
  end.

(** The prefix step of [parseInt] called without a radix: [0x] or [0X]
    selects radix 16, anything else radix 10. *)
Definition splitRadix (s : string) : Z * string :=
  match s with
  | String "0" (String "x" r) => (16, r)
  | String "0" (String "X" r) => (16, r)
  | _ => (10, s)
  end.

(** [parseInt(s)], one argument.  The result is the exact integer; the
    JS result is its nearest double, which compares with the small
    constants of the pages ([500], [16000]) the same way. *)
Definition parseInt (s : string) : option Z :=
  let '(sign, s1) := splitSign (trimStart s) in
  let '(R, s2) := splitRadix s1 in
  match parseDigits R s2 with
  | Some n => Some (sign * n)
  | None => None
  end.

(** [isNaN(x)] on the result of [parseInt]. *)
Definition isNaN (x : option Z) : bool :=
  match x with
  | Some _ => false
  | None => true
  end.

(** [x < n], [x > n] and [x >= n] for a number [x] that may be [NaN]:
    every comparison with [NaN] is false. *)
Definition lt (x : option Z) (n : Z) : bool :=
  match x with
  | Some v => v <? n
  | None => false
  end.

Definition gt (x : option Z) (n : Z) : bool :=
  match x with
  | Some v => n <? v
  | None => false
  end.

Definition ge (x : option Z) (n : Z) : bool :=
  match x with
  | Some v => n <=? v
  | None => false
  end.

(** An optional number inside a template literal. *)
Definition interpolate (x : option Z) : string :=
  match x with
  | Some v => toString v
  | None => "undefined"
  end.

(** [x.toString()] for a number that may be [NaN]. *)
Definition number_toString (x : option Z) : string :=
  match x with
  | Some v => toString v
  | None => "NaN"
  end.

(** The conversion of an integral number to the Web IDL type [long], the
    type of the [timeout] argument of [setInterval]: the number modulo
    2^32, taken in the signed 32-bit range. *)
Definition toLong (n : Z) : Z :=
  let m := n mod 4294967296 in
  if m <? 2147483648 then m else m - 4294967296.

(** The delay of the timer that [setInterval(f, ms)] creates: [ms] as a
    [long], and 0 when that is negative.  The few milliseconds to which
    a browser raises the smallest delays of a repeating timer are left
    out; they change no delay of 4 ms or more. *)
Definition timerDelay (ms : Z) : Z := Z.max 0 (toLong ms).

End Js.

(** Predicates on strings that the properties of [trim] are stated with. *)
Module JsText.

Definition first_unit (s : string) : option ascii :=
  match s with
  | EmptyString => None
  | String c _ => Some c
  end.

Definition last_unit (s : string) : option ascii :=
  first_unit (Js.string_rev s).

(** A code unit that is there and is white space. *)
Definition is_space (c : option ascii) : bool :=
  match c with
  | Some c => Js.isStrWhiteSpaceChar c
  | None => false
  end.

(** No white space at either end. *)
Definition trimmed (s : string) : Prop :=
  is_space (first_unit s) = false /\ is_space (last_unit s) = false.

(** Nothing but white space. *)
Fixpoint all_space (s : string) : bool :=
  match s with
  | EmptyString => true
  | String c s' => Js.isStrWhiteSpaceChar c && all_space s'
  end.

End JsText.

(* ===================================================================== *)
(** * Requests                                                            *)
(* ===================================================================== *)

Module Api.

(** What an awaited axios call settles to: the response body, or a
    rejection whose [error.response?.data?.detail] may be missing. *)
Inductive Response (A : Type) : Type :=
| Ok (data : A)
| Rejected (detail : option string).

Arguments Ok {A} data.
Arguments Rejected {A} detail.

End Api.

(* ===================================================================== *)
(** * Data interfaces ([types/index.ts])                                  *)
(* ===================================================================== *)

(** Arrays that the page reverses in place live in a store and are named
    by a reference. *)
Abbreviation aref := nat (only parsing).

Module AgentWeights.
Record t := {
  finance : Q;
  technology : Q;
  operations : Q;
  people_hr : Q;
  logistics : Q
}.
End AgentWeights.

Module AgentOpinion.
Record t := {
  agent_id : string;
  agent_name : string;
  agent_role : string;
  opinion : string;
  reasoning : string;
  confidence : Q;
  weights_applied : AgentWeights.t;
  timestamp : string
}.
End AgentOpinion.

Module FollowUpQuestion.
Record t := {
  id : string;
  question : string;
  chair_response : option string;
  created_at : string;
  version : option Z
}.
End FollowUpQuestion.

Module MeetingFile.
Record t := {
  id : string;
  filename : string;
  file_type : string;
  uploaded_at : string
}.
End MeetingFile.

Module OpinionVersion.
Record t := {
  version : Z;
  opinions : list AgentOpinion.t;
  chair_summary : string;
  chair_recommendation : string;
  follow_ups : option (list FollowUpQuestion.t);
  generated_at : string;
  generated_by : option Z
}.
End OpinionVersion.

(** [status: 'in_progress' | 'completed']. *)
Inductive Status := in_progress | completed.

Definition Status_eqb (a b : Status) : bool :=
  match a, b with
  | in_progress, in_progress => true
  | completed, completed => true
  | _, _ => false
  end.

(** An entry of [meeting.debug_logs].  The interface file does not declare
    it; the fields are the ones the page reads.  [details] is the JSON
    text of the structured payload, absent when there is none. *)
Module DebugLog.
Record t := {
  level : string;
  agent_name : string;
  timestamp : string;
  message : string;
  details : option string
}.
End DebugLog.

Module Meeting.
Record t := {
  id : string;
  user_id : Z;
  question : string;
  context : option string;
  opinions : list AgentOpinion.t;
  chair_summary : string;
  chair_recommendation : string;
  status : Status;
  created_at : string;
  completed_at : option string;
  follow_ups : option (list FollowUpQuestion.t);
  attached_files : option (list MeetingFile.t);
  current_version : option Z;
  opinion_history : option (list OpinionVersion.t);
  (* read by the page as [meeting?.debug_logs]; an array in the store *)
  debug_logs : option aref
}.
End Meeting.

Module User.
Record t := {
  id : Z;
  email : string;
  username : string;
  full_name : option string;
  company_name : option string;
  is_admin : bool;
  is_active : bool;
  hired_agents : list string;
  created_at : string;
  updated_at : option string
}.
End User.

(** [user?.is_admin] as a condition. *)
Definition user_is_admin (user : option User.t) : bool :=
  match user with
  | Some u => User.is_admin u
  | None => false
  end.

(* ===================================================================== *)
(** * [components/OpinionCard.tsx]: the expertise chips                   *)
(* ===================================================================== *)

(** A weight is the exact rational value of its double.  Comparing two
    doubles, and taking the sign of their difference, agree with the
    comparison of these values.  The percentage that a chip prints,
    [Math.round(value * 100)], rounds a product of doubles and is left
    out. *)
Module OpinionCard.

(** The literal [0.3]: the double nearest to three tenths. *)
Definition threshold : Q := 5404319552844595 # 18014398509481984.

(** [Object.entries(weights)] for an object whose keys come in the order
    of the interface. *)
Definition entries (w : AgentWeights.t) : list (string * Q) :=
  [("finance", AgentWeights.finance w);
   ("technology", AgentWeights.technology w);
   ("operations", AgentWeights.operations w);
   ("people_hr", AgentWeights.people_hr w);
   ("logistics", AgentWeights.logistics w)].

(** [value > 0.3]. *)
Definition aboveThreshold (e : string * Q) : bool :=
  negb (Qle_bool (snd e) threshold).

(** [Array.prototype.sort] with the comparator [(a, b) => b - a] on the
    values: the sort is stable, so it is the insertion of each element,
    from the last to the first, in front of the first element that is
    not greater. *)
Fixpoint insert (e : string * Q) (l : list (string * Q))
  : list (string * Q) :=
  match l with
  | [] => [e]
  | e' :: l' =>
      if Qle_bool (snd e') (snd e) then e :: l else e' :: insert e l'
  end.

Definition sortDescending (l : list (string * Q)) : list (string * Q) :=
  foldr insert [] l.

(** [s.replace(c, d)] for one-character patterns: the first occurrence
    only. *)
Fixpoint replaceFirst (c d : ascii) (s : string) : string :=
  match s with
  | EmptyString => EmptyString
  | String x r =>
      if Ascii.eqb x c then String d r else String x (replaceFirst c d r)
  end.

(** Whether the code unit [c] occurs in [s]. *)
Fixpoint occurs (c : ascii) (s : string) : bool :=
  match s with
  | EmptyString => false
  | String x r => Ascii.eqb x c || occurs c r
  end.

(** One chip: its React key, its label and the weight it stands for. *)
Record Chip := {
  chip_key : string;
  chip_label : string;
  chip_weight : Q
}.

Definition chip (e : string * Q) : Chip :=
  {| chip_key := fst e;
     chip_label := replaceFirst "_" " " (fst e);
     chip_weight := snd e |}.

(** [entries.filter(...).sort(...).map(...)]. *)
Definition chips (l : list (string * Q)) : list Chip :=
  chip <$> sortDescending (List.filter aboveThreshold l).

(** Values in non-increasing order. *)
Definition weightsDescending (l : list (string * Q)) : Prop :=
  StronglySorted (fun a b => (snd b <= snd a)%Q) l.

(** Weights in non-increasing order. *)
Definition descending (l : list Chip) : Prop :=
  StronglySorted (fun a b => (chip_weight b <= chip_weight a)%Q) l.

End OpinionCard.

(* ===================================================================== *)
(** * [api/axios.ts] and [store/authStore.ts]                             *)
(* ===================================================================== *)

Module Axios.

(** Truthiness of a string that may be [null] or [undefined]. *)
Definition truthy (o : option string) : bool :=
  match o with
  | Some s => Js.truthy_string s
  | None => false
  end.

(** What the interceptor finds under the key [auth-storage]: nothing (or
    the empty string), a text that [JSON.parse] refuses or that has no
    [state] object, or a text whose [state.token] is the given one. *)
Inductive AuthStorage :=
| NoItem
| Unreadable
| Persisted (token : option string).

Definition bearer (token : string) : string := "Bearer " +:+ token.

(** The request interceptor, from the module variable [currentToken],
    the storage and the [Authorization] header the request comes with:
    the header the request leaves with. *)
Definition requestInterceptor (currentToken : option string)
    (storage : AuthStorage) (authorization : option string)
  : option string :=
  if truthy authorization then authorization
  else
    match currentToken with
    | Some t =>
        if Js.truthy_string t then Some (bearer t)
        else
          match storage with
          | Persisted (Some t') =>
              if Js.truthy_string t' then Some (bearer t') else authorization
          | _ => authorization
          end
    | None =>
        match storage with
        | Persisted (Some t') =>
            if Js.truthy_string t' then Some (bearer t') else authorization
        | _ => authorization
        end
    end.

End Axios.

Module AuthStore.

(** The fields of the store. *)
Record State := {
  user : option User.t;
  token : option string;
  isAuthenticated : bool;
  isLoading : bool;
  hasHydrated : bool
}.

(** The store together with the module variable [currentToken] of
    [api/axios.ts], which [setAuthToken] writes. *)
Record World := {
  store : State;
  currentToken : option string
}.

Definition initial : State :=
  {| user := None; token := None; isAuthenticated := false;
     isLoading := false; hasHydrated := false |}.

(** [set({ isLoading: b })]. *)
Definition setLoading (b : bool) (st : State) : State :=
  {| user := user st; token := token st;
     isAuthenticated := isAuthenticated st; isLoading := b;
     hasHydrated := hasHydrated st |}.

(** [set({ hasHydrated: b })]. *)
Definition setHasHydrated (b : bool) (st : State) : State :=
  {| user := user st; token := token st;
     isAuthenticated := isAuthenticated st; isLoading := isLoading st;
     hasHydrated := b |}.

(** [set({ token, isAuthenticated, user })]. *)
Definition setSession (t : option string) (a : bool) (u : option User.t)
    (st : State) : State :=
  {| user := u; token := t; isAuthenticated := a;
     isLoading := isLoading st; hasHydrated := hasHydrated st |}.

(** [setAuthToken(t)]. *)
Definition setAuthToken (t : option string) (w : World) : World :=
  {| store := store w; currentToken := t |}.

Definition onStore (f : State -> State) (w : World) : World :=
  {| store := f (store w); currentToken := currentToken w |}.

(** How an action ends. *)
Inductive Outcome := Returned | Thrown.

(** [login]: [post] is the outcome of the login request, with the
    [access_token] of its body, [me] the outcome of [/api/auth/me]. *)
Definition login (post : Api.Response (option string))
    (me : Api.Response User.t) (w : World) : World * Outcome :=
  let w1 := onStore (setLoading true) w in
  let failed :=
    (onStore (setLoading false)
       (onStore (setSession None false None) (setAuthToken None w1)),
     Thrown) in
  match post with
  | Api.Ok access_token =>
      let w2 := setAuthToken access_token w1 in
      match me with
      | Api.Ok userData =>
          (onStore (setLoading false)
             (onStore (setSession access_token true (Some userData)) w2),
           Returned)
      | Api.Rejected _ => failed
      end
  | Api.Rejected _ => failed
  end.

(** [register]: the registration request, then [login]. *)
Definition register (post : Api.Response unit)
    (loginPost : Api.Response (option string)) (me : Api.Response User.t)
    (w : World) : World * Outcome :=
  let w1 := onStore (setLoading true) w in
  match post with
  | Api.Ok _ =>
      let '(w2, outcome) := login loginPost me w1 in
      (onStore (setLoading false) w2, outcome)
  | Api.Rejected _ => (onStore (setLoading false) w1, Thrown)
  end.

(** [logout]. *)
Definition logout (w : World) : World :=
  onStore (setSession None false None) (setAuthToken None w).

(** [fetchUser]. *)
Definition fetchUser (get : Api.Response User.t) (w : World) : World :=
  if negb (Axios.truthy (token (store w))) then w
  else
    match get with
    | Api.Ok userData =>
        onStore (fun st => setSession (token st) true (Some userData) st) w
    | Api.Rejected _ => onStore (setSession None false None) w
    end.

(** [{ ...user, hired_agents: agents }]. *)
Definition withHiredAgents (agents : list string) (u : User.t) : User.t :=
  {| User.id := User.id u; User.email := User.email u;
     User.username := User.username u; User.full_name := User.full_name u;
     User.company_name := User.company_name u;
     User.is_admin := User.is_admin u; User.is_active := User.is_active u;
     User.hired_agents := agents; User.created_at := User.created_at u;
     User.updated_at := User.updated_at u |}.

(** [updateHiredAgents]. *)
Definition updateHiredAgents (agents : list string) (w : World) : World :=
  match user (store w) with
  | Some u =>
      onStore (fun st =>
                 setSession (token st) (isAuthenticated st)
                   (Some (withHiredAgents agents u)) st) w
  | None => w
  end.

(** What [partialize] keeps in the storage. *)
Record Persisted := {
  persisted_token : option string;
  persisted_isAuthenticated : bool;
  persisted_user : option User.t
}.

Definition partialize (st : State) : Persisted :=
  {| persisted_token := token st;
     persisted_isAuthenticated := isAuthenticated st;
     persisted_user := user st |}.

(** A page load: the module variable starts as [null], the store as
    [initial] with the persisted fields over it, and the callback of
    [onRehydrateStorage] puts a persisted token back into axios and
    raises [hasHydrated]. *)
Definition pageLoad (item : option Persisted) : World :=
  let st :=
    match item with
    | Some p =>
        setSession (persisted_token p) (persisted_isAuthenticated p)
          (persisted_user p) initial
    | None => initial
    end in
  {| store := setHasHydrated true st;
     currentToken :=
       if Axios.truthy (token st) then token st else None |}.

(** The actions of the store as events. *)
Inductive Event :=
| Login (post : Api.Response (option string)) (me : Api.Response User.t)
| Register (post : Api.Response unit)
           (loginPost : Api.Response (option string))
           (me : Api.Response User.t)
| Logout
| FetchUser (get : Api.Response User.t)
| UpdateHiredAgents (agents : list string).

Definition step (w : World) (e : Event) : World :=
  match e with
  | Login post me => (login post me w).1
  | Register post loginPost me => (register post loginPost me w).1
  | Logout => logout w
  | FetchUser get => fetchUser get w
  | UpdateHiredAgents agents => updateHiredAgents agents w
  end.

(** The world after a page load and a sequence of actions. *)
Definition after (item : option Persisted) (es : list Event) : World :=
  fold_left step es (pageLoad item).

(** The storage as the interceptor reads it once the store has written
    its fields there. *)
Definition written (w : World) : Axios.AuthStorage :=
  Axios.Persisted (token (store w)).

(** A token held by the store is the one axios holds in memory. *)
Definition token_in_memory (w : World) : Prop :=
  Axios.truthy (token (store w)) = true ->
  currentToken w = token (store w).

(** The store and the token in memory are both cleared, and a request
    without a header of its own leaves without one. *)
Definition signed_out (w : World) : Prop :=
  user (store w) = None /\ token (store w) = None
  /\ isAuthenticated (store w) = false
  /\ currentToken w = None
  /\ Axios.requestInterceptor (currentToken w) (written w) None = None.

(** The session fields go together, and nothing is left loading. *)
Definition session_coherent (w : World) : Prop :=
  (isAuthenticated (store w) = false ->
   token (store w) = None /\ user (store w) = None)
  /\ (isAuthenticated (store w) = true -> is_Some (user (store w)))
  /\ isLoading (store w) = false.

End AuthStore.

(* ===================================================================== *)
(** * [pages/admin/AdminSettings.tsx]: the token-limit form               *)
(* ===================================================================== *)

Module AdminSettings.

Inductive Effect :=
| ToastError (msg : string)
| ToastSuccess (msg : string)
| SetSavingTokenLimits (b : bool)
| ApiPut (url : string) (body : list (string * string))
| FetchSettings.

Definition agent_range_msg : string :=
  "Agent max tokens must be between 500 and 16000".

Definition chair_range_msg : string :=
  "Chair max tokens must be between 500 and 16000".

(** A parsed input that is a number between 500 and 16000. *)
Definition within_limits (t : option Z) : Prop :=
  exists n, t = Some n /\ 500 <= n <= 16000.

(** [isNaN(t) || t < 500 || t > 16000]. *)
Definition out_of_range (t : option Z) : bool :=
  Js.isNaN t || Js.lt t 500 || Js.gt t 16000.

(** [handleSaveTokenLimits], from the two state strings bound to the
    number inputs and the outcome of the [PUT]. *)
Definition handleSaveTokenLimits
    (agentMaxTokens chairMaxTokens : string) (put : Api.Response unit)
  : list Effect :=
  let agentTokens := Js.parseInt agentMaxTokens in
  let chairTokens := Js.parseInt chairMaxTokens in
  if out_of_range agentTokens then
    [ToastError agent_range_msg]
  else if out_of_range chairTokens then
    [ToastError chair_range_msg]
  else
    [SetSavingTokenLimits true;
     ApiPut "/api/admin/settings"
       [("agent_max_tokens", Js.number_toString agentTokens);
        ("chair_max_tokens", Js.number_toString chairTokens)]]
    ++ match put with
       | Api.Ok _ =>
           [ToastSuccess "Token limits saved successfully"; FetchSettings]
       | Api.Rejected detail =>
           [ToastError (Js.or_string detail "Failed to save token limits")]
       end
    ++ [SetSavingTokenLimits false].

End AdminSettings.

(** The rest of the settings page: its state, [fetchSettings] and
    [handleSaveApiKey]. *)
Module AdminSettingsPage.

(** The [useState] cells; [settings] is a [Record<string, string>]. *)
Record State := {
  settings : gmap string string;
  loading : bool;
  saving : bool;
  savingTokenLimits : bool;
  showApiKey : bool;
  apiKey : string;
  agentMaxTokens : string;
  chairMaxTokens : string
}.

Definition initial : State :=
  {| settings := ∅; loading := true; saving := false;
     savingTokenLimits := false; showApiKey := false; apiKey := "";
     agentMaxTokens := "2000"; chairMaxTokens := "3000" |}.

(** The setter calls of the page, next to the effects that
    [AdminSettings.handleSaveTokenLimits] already has. *)
Inductive Action :=
| Do (e : AdminSettings.Effect)
| SetSettings (data : gmap string string)
| SetLoading (b : bool)
| SetSaving (b : bool)
| SetApiKey (s : string)
| SetAgentMaxTokens (s : string)
| SetChairMaxTokens (s : string).

Definition apply (a : Action) (st : State) : State :=
  match a with
  | Do (AdminSettings.SetSavingTokenLimits b) =>
      {| settings := settings st; loading := loading st; saving := saving st;
         savingTokenLimits := b; showApiKey := showApiKey st;
         apiKey := apiKey st; agentMaxTokens := agentMaxTokens st;
         chairMaxTokens := chairMaxTokens st |}
  | Do _ => st
  | SetSettings data =>
      {| settings := data; loading := loading st; saving := saving st;
         savingTokenLimits := savingTokenLimits st;
         showApiKey := showApiKey st; apiKey := apiKey st;
         agentMaxTokens := agentMaxTokens st;
         chairMaxTokens := chairMaxTokens st |}
  | SetLoading b =>
      {| settings := settings st; loading := b; saving := saving st;
         savingTokenLimits := savingTokenLimits st;
         showApiKey := showApiKey st; apiKey := apiKey st;
         agentMaxTokens := agentMaxTokens st;
         chairMaxTokens := chairMaxTokens st |}
  | SetSaving b =>
      {| settings := settings st; loading := loading st; saving := b;
         savingTokenLimits := savingTokenLimits st;
         showApiKey := showApiKey st; apiKey := apiKey st;
         agentMaxTokens := agentMaxTokens st;
         chairMaxTokens := chairMaxTokens st |}
  | SetApiKey s =>
      {| settings := settings st; loading := loading st; saving := saving st;
         savingTokenLimits := savingTokenLimits st;
         showApiKey := showApiKey st; apiKey := s;
         agentMaxTokens := agentMaxTokens st;
         chairMaxTokens := chairMaxTokens st |}
  | SetAgentMaxTokens s =>
      {| settings := settings st; loading := loading st; saving := saving st;
         savingTokenLimits := savingTokenLimits st;
         showApiKey := showApiKey st; apiKey := apiKey st;
         agentMaxTokens := s; chairMaxTokens := chairMaxTokens st |}
  | SetChairMaxTokens s =>
      {| settings := settings st; loading := loading st; saving := saving st;
         savingTokenLimits := savingTokenLimits st;
         showApiKey := showApiKey st; apiKey := apiKey st;
         agentMaxTokens := agentMaxTokens st; chairMaxTokens := s |}
  end.

Fixpoint run (acts : list Action) (st : State) : State :=
  match acts with
  | [] => st
  | a :: rest => run rest (apply a st)
  end.

(** [if (response.data[key]) setter(response.data[key])]. *)
Definition whenPresent (data : gmap string string) (key : string)
    (setter : string -> Action) : list Action :=
  match data !! key with
  | Some v => if Js.truthy_string v then [setter v] else []
  | None => []
  end.

(** [fetchSettings]. *)
Definition fetchSettings (get : Api.Response (gmap string string))
  : list Action :=
  match get with
  | Api.Ok data =>
      [SetSettings data]
      ++ whenPresent data "agent_max_tokens" SetAgentMaxTokens
      ++ whenPresent data "chair_max_tokens" SetChairMaxTokens
  | Api.Rejected _ =>
      [Do (AdminSettings.ToastError "Failed to load settings")]
  end
  ++ [SetLoading false].

(** [handleSaveApiKey]. *)
Definition handleSaveApiKey (st : State) (put : Api.Response unit)
  : list Action :=
  if negb (Js.truthy_string (Js.trim (apiKey st))) then
    [Do (AdminSettings.ToastError "Please enter an API key")]
  else
    [SetSaving true;
     Do (AdminSettings.ApiPut "/api/admin/settings"
           [("openai_api_key", apiKey st)])]
    ++ match put with
       | Api.Ok _ =>
           [Do (AdminSettings.ToastSuccess
                  "OpenAI API key saved successfully");
            SetApiKey "";
            Do AdminSettings.FetchSettings]
       | Api.Rejected detail =>
           [Do (AdminSettings.ToastError
                  (Js.or_string detail "Failed to save API key"))]
       end
    ++ [SetSaving false].

(** [handleSaveTokenLimits], reading the two inputs from the state. *)
Definition handleSaveTokenLimits (st : State) (put : Api.Response unit)
  : list Action :=
  Do <$> AdminSettings.handleSaveTokenLimits
           (agentMaxTokens st) (chairMaxTokens st) put.

(** The status line of the key: [settings.openai_api_key ? ... : ...]. *)
Definition keyConfigured (st : State) : bool :=
  match settings st !! "openai_api_key" with
  | Some v => Js.truthy_string v
  | None => false
  end.

End AdminSettingsPage.

(* ===================================================================== *)
(** * Arrays in a store                                                   *)
(* ===================================================================== *)

(** [Array.prototype.reverse] reverses the array it is called on and
    returns that same array; [[...a]] allocates a new one.  The store maps
    a reference to the current content of its array, and an array
    expression is a computation over the store. *)
Module ArrayStore.

Section Store.
Context {A : Type}.

Definition M (B : Type) : Type := gmap nat (list A) -> B * gmap nat (list A).

Definition ret {B} (b : B) : M B := fun σ => (b, σ).

Definition bind {B C} (c : M B) (k : B -> M C) : M C :=
  fun σ => let '(b, σ') := c σ in k b σ'.

(** The content of an array; a reference that names nothing reads as
    the empty array. *)
Definition content (r : aref) (σ : gmap nat (list A)) : list A :=
  default [] (σ !! r).

(** A new array holding [l]. *)
Definition alloc (l : list A) : M aref :=
  fun σ => let r := fresh (dom σ) in (r, <[r := l]> σ).

(** [[...r]]. *)
Definition spread (r : aref) : M aref :=
  fun σ => alloc (content r σ) σ.

(** [r.reverse()]: the array named [r] is reversed where it is, and [r]
    is returned. *)
Definition reverse_in_place (r : aref) : M aref :=
  fun σ => (r, alter reverse r σ).

(** Reading the elements of [r], as [map] does. *)
Definition elements (r : aref) : M (list A) :=
  fun σ => (content r σ, σ).

End Store.

End ArrayStore.

Notation "'let*' x ':=' c 'in' k" :=
  (ArrayStore.bind c (fun x => k))
  (at level 10, x name, c at level 100, k at level 200).

(* ===================================================================== *)
(** * [pages/MeetingDetail.tsx]                                           *)
(* ===================================================================== *)

Module MeetingDetail.

(** The [useState] cells of the component, and the timer held by the
    [useRef] cell [pollingIntervalRef]: [Some ms] while a timer made by
    [setInterval(..., ms)] is running, [ms] being the delay argument of
    that call (the period the timer then has is [Js.timerDelay ms], see
    [pollingPeriod]). *)
Record State := {
  meeting : option Meeting.t;
  loading : bool;
  regenerating : bool;
  showFollowUp : bool;
  followUpQuestion : string;
  submittingFollowUp : bool;
  followUps : list FollowUpQuestion.t;
  meetingFiles : list MeetingFile.t;
  uploadingFile : bool;
  showVersionHistory : bool;
  selectedVersion : option OpinionVersion.t;
  restoringVersion : bool;
  showDebugLogs : bool;
  expandedLogIds : gset nat;
  pollingIntervalMs : Z;
  pollingIntervalRef : option Z
}.

Definition initial : State :=
  {| meeting := None; loading := true; regenerating := false;
     showFollowUp := false; followUpQuestion := "";
     submittingFollowUp := false; followUps := []; meetingFiles := [];
     uploadingFile := false; showVersionHistory := false;
     selectedVersion := None; restoringVersion := false;
     showDebugLogs := false; expandedLogIds := ∅;
     pollingIntervalMs := 2000; pollingIntervalRef := None |}.

Definition set_meeting (x : option Meeting.t) (st : State) : State :=
  {| meeting := x; loading := loading st; regenerating :=
     regenerating st; showFollowUp := showFollowUp st;
     followUpQuestion := followUpQuestion st; submittingFollowUp :=
     submittingFollowUp st; followUps := followUps st; meetingFiles
     := meetingFiles st; uploadingFile := uploadingFile st;
     showVersionHistory := showVersionHistory st; selectedVersion :=
     selectedVersion st; restoringVersion := restoringVersion st;
     showDebugLogs := showDebugLogs st; expandedLogIds :=
     expandedLogIds st; pollingIntervalMs := pollingIntervalMs st;
     pollingIntervalRef := pollingIntervalRef st |}.

Definition set_loading (x : bool) (st : State) : State :=
  {| meeting := meeting st; loading := x; regenerating :=
     regenerating st; showFollowUp := showFollowUp st;
     followUpQuestion := followUpQuestion st; submittingFollowUp :=
     submittingFollowUp st; followUps := followUps st; meetingFiles
     := meetingFiles st; uploadingFile := uploadingFile st;
     showVersionHistory := showVersionHistory st; selectedVersion :=
     selectedVersion st; restoringVersion := restoringVersion st;
     showDebugLogs := showDebugLogs st; expandedLogIds :=
     expandedLogIds st; pollingIntervalMs := pollingIntervalMs st;
     pollingIntervalRef := pollingIntervalRef st |}.

Definition set_regenerating (x : bool) (st : State) : State :=
  {| meeting := meeting st; loading := loading st; regenerating :=
     x; showFollowUp := showFollowUp st; followUpQuestion :=
     followUpQuestion st; submittingFollowUp := submittingFollowUp
     st; followUps := followUps st; meetingFiles := meetingFiles st;
     uploadingFile := uploadingFile st; showVersionHistory :=
     showVersionHistory st; selectedVersion := selectedVersion st;
     restoringVersion := restoringVersion st; showDebugLogs :=
     showDebugLogs st; expandedLogIds := expandedLogIds st;
     pollingIntervalMs := pollingIntervalMs st; pollingIntervalRef
     := pollingIntervalRef st |}.

Definition set_showFollowUp (x : bool) (st : State) : State :=
  {| meeting := meeting st; loading := loading st; regenerating :=
     regenerating st; showFollowUp := x; followUpQuestion :=
     followUpQuestion st; submittingFollowUp := submittingFollowUp
     st; followUps := followUps st; meetingFiles := meetingFiles st;
     uploadingFile := uploadingFile st; showVersionHistory :=
     showVersionHistory st; selectedVersion := selectedVersion st;
     restoringVersion := restoringVersion st; showDebugLogs :=
     showDebugLogs st; expandedLogIds := expandedLogIds st;
     pollingIntervalMs := pollingIntervalMs st; pollingIntervalRef
     := pollingIntervalRef st |}.

Definition set_followUpQuestion (x : string) (st : State) : State :=
  {| meeting := meeting st; loading := loading st; regenerating :=
     regenerating st; showFollowUp := showFollowUp st;
     followUpQuestion := x; submittingFollowUp := submittingFollowUp
     st; followUps := followUps st; meetingFiles := meetingFiles st;
     uploadingFile := uploadingFile st; showVersionHistory :=
     showVersionHistory st; selectedVersion := selectedVersion st;
     restoringVersion := restoringVersion st; showDebugLogs :=
     showDebugLogs st; expandedLogIds := expandedLogIds st;
     pollingIntervalMs := pollingIntervalMs st; pollingIntervalRef
     := pollingIntervalRef st |}.

Definition set_submittingFollowUp (x : bool) (st : State) : State :=
  {| meeting := meeting st; loading := loading st; regenerating :=
     regenerating st; showFollowUp := showFollowUp st;
     followUpQuestion := followUpQuestion st; submittingFollowUp :=
     x; followUps := followUps st; meetingFiles := meetingFiles st;
     uploadingFile := uploadingFile st; showVersionHistory :=
     showVersionHistory st; selectedVersion := selectedVersion st;
     restoringVersion := restoringVersion st; showDebugLogs :=
     showDebugLogs st; expandedLogIds := expandedLogIds st;
     pollingIntervalMs := pollingIntervalMs st; pollingIntervalRef
     := pollingIntervalRef st |}.

Definition set_followUps (x : list FollowUpQuestion.t) (st : State) : State :=
  {| meeting := meeting st; loading := loading st; regenerating :=
     regenerating st; showFollowUp := showFollowUp st;
     followUpQuestion := followUpQuestion st; submittingFollowUp :=
     submittingFollowUp st; followUps := x; meetingFiles :=
     meetingFiles st; uploadingFile := uploadingFile st;
     showVersionHistory := showVersionHistory st; selectedVersion :=
     selectedVersion st; restoringVersion := restoringVersion st;
     showDebugLogs := showDebugLogs st; expandedLogIds :=
     expandedLogIds st; pollingIntervalMs := pollingIntervalMs st;
     pollingIntervalRef := pollingIntervalRef st |}.

Definition set_meetingFiles (x : list MeetingFile.t) (st : State) : State :=
  {| meeting := meeting st; loading := loading st; regenerating :=
     regenerating st; showFollowUp := showFollowUp st;
     followUpQuestion := followUpQuestion st; submittingFollowUp :=
     submittingFollowUp st; followUps := followUps st; meetingFiles
     := x; uploadingFile := uploadingFile st; showVersionHistory :=
     showVersionHistory st; selectedVersion := selectedVersion st;
     restoringVersion := restoringVersion st; showDebugLogs :=
     showDebugLogs st; expandedLogIds := expandedLogIds st;
     pollingIntervalMs := pollingIntervalMs st; pollingIntervalRef
     := pollingIntervalRef st |}.

Definition set_uploadingFile (x : bool) (st : State) : State :=
  {| meeting := meeting st; loading := loading st; regenerating :=
     regenerating st; showFollowUp := showFollowUp st;
     followUpQuestion := followUpQuestion st; submittingFollowUp :=
     submittingFollowUp st; followUps := followUps st; meetingFiles
     := meetingFiles st; uploadingFile := x; showVersionHistory :=
     showVersionHistory st; selectedVersion := selectedVersion st;
     restoringVersion := restoringVersion st; showDebugLogs :=
     showDebugLogs st; expandedLogIds := expandedLogIds st;
     pollingIntervalMs := pollingIntervalMs st; pollingIntervalRef
     := pollingIntervalRef st |}.

Definition set_showVersionHistory (x : bool) (st : State) : State :=
  {| meeting := meeting st; loading := loading st; regenerating :=
     regenerating st; showFollowUp := showFollowUp st;
     followUpQuestion := followUpQuestion st; submittingFollowUp :=
     submittingFollowUp st; followUps := followUps st; meetingFiles
     := meetingFiles st; uploadingFile := uploadingFile st;
     showVersionHistory := x; selectedVersion := selectedVersion st;
     restoringVersion := restoringVersion st; showDebugLogs :=
     showDebugLogs st; expandedLogIds := expandedLogIds st;
     pollingIntervalMs := pollingIntervalMs st; pollingIntervalRef
     := pollingIntervalRef st |}.

Definition set_selectedVersion (x : option OpinionVersion.t) (st : State) : State :=
  {| meeting := meeting st; loading := loading st; regenerating :=
     regenerating st; showFollowUp := showFollowUp st;
     followUpQuestion := followUpQuestion st; submittingFollowUp :=
     submittingFollowUp st; followUps := followUps st; meetingFiles
     := meetingFiles st; uploadingFile := uploadingFile st;
     showVersionHistory := showVersionHistory st; selectedVersion :=
     x; restoringVersion := restoringVersion st; showDebugLogs :=
     showDebugLogs st; expandedLogIds := expandedLogIds st;
     pollingIntervalMs := pollingIntervalMs st; pollingIntervalRef
     := pollingIntervalRef st |}.

Definition set_restoringVersion (x : bool) (st : State) : State :=
  {| meeting := meeting st; loading := loading st; regenerating :=
     regenerating st; showFollowUp := showFollowUp st;
     followUpQuestion := followUpQuestion st; submittingFollowUp :=
     submittingFollowUp st; followUps := followUps st; meetingFiles
     := meetingFiles st; uploadingFile := uploadingFile st;
     showVersionHistory := showVersionHistory st; selectedVersion :=
     selectedVersion st; restoringVersion := x; showDebugLogs :=
     showDebugLogs st; expandedLogIds := expandedLogIds st;
     pollingIntervalMs := pollingIntervalMs st; pollingIntervalRef
     := pollingIntervalRef st |}.

Definition set_showDebugLogs (x : bool) (st : State) : State :=
  {| meeting := meeting st; loading := loading st; regenerating :=
     regenerating st; showFollowUp := showFollowUp st;
     followUpQuestion := followUpQuestion st; submittingFollowUp :=
     submittingFollowUp st; followUps := followUps st; meetingFiles
     := meetingFiles st; uploadingFile := uploadingFile st;
     showVersionHistory := showVersionHistory st; selectedVersion :=
     selectedVersion st; restoringVersion := restoringVersion st;
     showDebugLogs := x; expandedLogIds := expandedLogIds st;
     pollingIntervalMs := pollingIntervalMs st; pollingIntervalRef
     := pollingIntervalRef st |}.

Definition set_expandedLogIds (x : gset nat) (st : State) : State :=
  {| meeting := meeting st; loading := loading st; regenerating :=
     regenerating st; showFollowUp := showFollowUp st;
     followUpQuestion := followUpQuestion st; submittingFollowUp :=
     submittingFollowUp st; followUps := followUps st; meetingFiles
     := meetingFiles st; uploadingFile := uploadingFile st;
     showVersionHistory := showVersionHistory st; selectedVersion :=
     selectedVersion st; restoringVersion := restoringVersion st;
     showDebugLogs := showDebugLogs st; expandedLogIds := x;
     pollingIntervalMs := pollingIntervalMs st; pollingIntervalRef
     := pollingIntervalRef st |}.

Definition set_pollingIntervalMs (x : Z) (st : State) : State :=
  {| meeting := meeting st; loading := loading st; regenerating :=
     regenerating st; showFollowUp := showFollowUp st;
     followUpQuestion := followUpQuestion st; submittingFollowUp :=
     submittingFollowUp st; followUps := followUps st; meetingFiles
     := meetingFiles st; uploadingFile := uploadingFile st;
     showVersionHistory := showVersionHistory st; selectedVersion :=
     selectedVersion st; restoringVersion := restoringVersion st;
     showDebugLogs := showDebugLogs st; expandedLogIds :=
     expandedLogIds st; pollingIntervalMs := x; pollingIntervalRef
     := pollingIntervalRef st |}.

Definition set_pollingIntervalRef (x : option Z) (st : State) : State :=
  {| meeting := meeting st; loading := loading st; regenerating :=
     regenerating st; showFollowUp := showFollowUp st;
     followUpQuestion := followUpQuestion st; submittingFollowUp :=
     submittingFollowUp st; followUps := followUps st; meetingFiles
     := meetingFiles st; uploadingFile := uploadingFile st;
     showVersionHistory := showVersionHistory st; selectedVersion :=
     selectedVersion st; restoringVersion := restoringVersion st;
     showDebugLogs := showDebugLogs st; expandedLogIds :=
     expandedLogIds st; pollingIntervalMs := pollingIntervalMs st;
     pollingIntervalRef := x |}.

(** ** Setter calls, toasts and requests *)

Inductive Request :=
| GetMeeting
| GetSettings
| PostRegenerate
| PostRestore (version : Z)
| PostFollowUp (question : string)
| PostFile
| DeleteFile (fileId : string)
| DeleteMeeting.

Inductive Action :=
| SetMeeting (m : Meeting.t)
| SetLoading (b : bool)
| SetRegenerating (b : bool)
| SetShowFollowUp (b : bool)
| SetFollowUpQuestion (s : string)
| SetSubmittingFollowUp (b : bool)
| SetFollowUps (l : list FollowUpQuestion.t)
(* [setFollowUps(prev => [...prev, q])] *)
| AppendFollowUp (q : FollowUpQuestion.t)
| SetMeetingFiles (l : list MeetingFile.t)
(* [setMeetingFiles(prev => [...prev, f])] *)
| AppendMeetingFile (f : MeetingFile.t)
(* [setMeetingFiles(prev => prev.filter(f => f.id !== fileId))] *)
| RemoveMeetingFile (fileId : string)
| SetUploadingFile (b : bool)
| SetShowVersionHistory (b : bool)
| SetSelectedVersion (v : option OpinionVersion.t)
| SetRestoringVersion (b : bool)
| SetShowDebugLogs (b : bool)
(* [setExpandedLogIds(prev => ...)] of [toggleLogExpanded] *)
| UpdateExpandedLogIds (f : gset nat -> gset nat)
| SetPollingIntervalMs (ms : Z)
(* [startPolling()] and [stopPolling()] *)
| StartPolling
| StopPolling
| ToastError (msg : string)
| ToastSuccess (msg : string)
| Send (r : Request)
(* [window.location.href = url] *)
| Navigate (url : string).

(** [startPolling]: nothing while a timer runs, else
    [setInterval(..., pollingIntervalMs)]; the cell keeps the delay
    argument of the call. *)
Definition startPolling (st : State) : State :=
  match pollingIntervalRef st with
  | Some _ => st
  | None => set_pollingIntervalRef (Some (pollingIntervalMs st)) st
  end.

Definition stopPolling (st : State) : State :=
  match pollingIntervalRef st with
  | Some _ => set_pollingIntervalRef None st
  | None => st
  end.

Definition apply (a : Action) (st : State) : State :=
  match a with
  | SetMeeting m => set_meeting (Some m) st
  | SetLoading b => set_loading b st
  | SetRegenerating b => set_regenerating b st
  | SetShowFollowUp b => set_showFollowUp b st
  | SetFollowUpQuestion s => set_followUpQuestion s st
  | SetSubmittingFollowUp b => set_submittingFollowUp b st
  | SetFollowUps l => set_followUps l st
  | AppendFollowUp q => set_followUps (followUps st ++ [q]) st
  | SetMeetingFiles l => set_meetingFiles l st
  | AppendMeetingFile f => set_meetingFiles (meetingFiles st ++ [f]) st
  | RemoveMeetingFile fileId =>
      set_meetingFiles
        (List.filter (fun f => negb (String.eqb (MeetingFile.id f) fileId))
           (meetingFiles st))
        st
  | SetUploadingFile b => set_uploadingFile b st
  | SetShowVersionHistory b => set_showVersionHistory b st
  | SetSelectedVersion v => set_selectedVersion v st
  | SetRestoringVersion b => set_restoringVersion b st
  | SetShowDebugLogs b => set_showDebugLogs b st
  | UpdateExpandedLogIds f => set_expandedLogIds (f (expandedLogIds st)) st
  | SetPollingIntervalMs ms => set_pollingIntervalMs ms st
  | StartPolling => startPolling st
  | StopPolling => stopPolling st
  | ToastError _ | ToastSuccess _ | Send _ | Navigate _ => st
  end.

(** The state after a handler has run its actions in order. *)
Fixpoint run (acts : list Action) (st : State) : State :=
  match acts with
  | [] => st
  | a :: rest => run rest (apply a st)
  end.

(** ** Handlers *)

(** [fetchMeeting(silent)]. *)
Definition fetchMeeting (silent : bool) (get : Api.Response Meeting.t)
  : list Action :=
  Send GetMeeting ::
  match get with
  | Api.Ok data =>
      [SetMeeting data;
       SetFollowUps (Js.or_object (Meeting.follow_ups data) []);
       SetMeetingFiles (Js.or_object (Meeting.attached_files data) [])]
      ++ (if negb silent then [SetSelectedVersion None] else [])
  | Api.Rejected _ =>
      if negb silent then [ToastError "Failed to load meeting"] else []
  end
  ++ (if negb silent then [SetLoading false] else []).

(** One tick of the interval that [startPolling] sets. *)
Definition pollTick (get : Api.Response Meeting.t) : list Action :=
  fetchMeeting true get
  ++ match get with
     | Api.Ok data =>
         if Status_eqb (Meeting.status data) completed then
           [StopPolling; SetRegenerating false;
            ToastSuccess
              ("Meeting regenerated! Now on version "
               +:+ Js.interpolate (Meeting.current_version data))]
         else []
     | Api.Rejected _ => []
     end.

(** [fetchSettings]; the response body is reduced to its
    [polling_interval] entry. *)
Definition fetchSettings (user : option User.t)
    (get : Api.Response (option string)) : list Action :=
  if negb (user_is_admin user) then []
  else
    Send GetSettings ::
    match get with
    | Api.Ok (Some polling_interval) =>
        if Js.truthy_string polling_interval then
          let interval := Js.parseInt polling_interval in
          if negb (Js.isNaN interval) && Js.ge interval 500 then
            match interval with
            | Some ms => [SetPollingIntervalMs ms]
            | None => []
            end
          else []
        else []
    | Api.Ok None => []
    | Api.Rejected _ => []
    end.

(** [(meeting?.opinion_history?.length || 0) + 1], the number of
    versions in the confirmation prompt of [handleRegenerate]. *)
Definition historyCount (meeting : option Meeting.t) : Z :=
  Js.or_number
    (Js.array_length <$> (meeting ≫= Meeting.opinion_history)) 0 + 1.

(** [meeting?.current_version || 1], the version the prompt says the
    current opinions are saved as. *)
Definition savedAsVersion (meeting : option Meeting.t) : Z :=
  Js.or_number (meeting ≫= Meeting.current_version) 1.

(** [handleRegenerate] once the prompt is confirmed, up to the [await]
    of its request: lines 160 to 167. *)
Definition regenerateBefore : list Action :=
  [SetRegenerating true; SetSelectedVersion None; StartPolling;
   Send PostRegenerate].

(** [handleRegenerate] from the outcome [post] of its request on: lines
    168 to 180.  The [fetchMeeting(true)] of the error path is not
    awaited: the handler only sends its request. *)
Definition regenerateAfter (post : Api.Response Meeting.t) : list Action :=
  match post with
  | Api.Ok data =>
      [StopPolling; SetMeeting data;
       SetFollowUps (Js.or_object (Meeting.follow_ups data) []);
       ToastSuccess
         ("Meeting regenerated! Now on version "
          +:+ Js.interpolate (Meeting.current_version data))]
  | Api.Rejected detail =>
      [StopPolling;
       ToastError (Js.or_string detail "Failed to regenerate meeting");
       Send GetMeeting]
  end
  ++ [SetRegenerating false].

(** [handleRegenerate] in program order: [confirmed] is the answer to
    the prompt, [post] the outcome of the request.  The request is
    awaited between the two parts; what the page does in the meantime
    (the ticks of the timer that the first part starts, clicks) is in
    the transition system below, which runs the parts as two events. *)
Definition handleRegenerate (confirmed : bool)
    (post : Api.Response Meeting.t) : list Action :=
  if negb confirmed then []
  else regenerateBefore ++ regenerateAfter post.

(** [handleRestoreVersion(version)]. *)
Definition handleRestoreVersion (version : Z) (confirmed : bool)
    (post : Api.Response Meeting.t) : list Action :=
  if negb confirmed then []
  else
    [SetRestoringVersion true; Send (PostRestore version)]
    ++ match post with
       | Api.Ok data =>
           [SetMeeting data;
            SetFollowUps (Js.or_object (Meeting.follow_ups data) []);
            SetSelectedVersion None;
            SetShowVersionHistory false;
            ToastSuccess ("Restored to version " +:+ Js.toString version)]
       | Api.Rejected detail =>
           [ToastError (Js.or_string detail "Failed to restore version")]
       end
    ++ [SetRestoringVersion false].

(** [handleFollowUpSubmit], reading the text box from the state. *)
Definition handleFollowUpSubmit (st : State)
    (post : Api.Response FollowUpQuestion.t) : list Action :=
  if negb (Js.truthy_string (Js.trim (followUpQuestion st))) then []
  else
    [SetSubmittingFollowUp true;
     Send (PostFollowUp (Js.trim (followUpQuestion st)))]
    ++ match post with
       | Api.Ok data =>
           [AppendFollowUp data; SetFollowUpQuestion "";
            SetShowFollowUp false;
            ToastSuccess "Follow-up question submitted"]
       | Api.Rejected detail =>
           [ToastError (Js.or_string detail "Failed to submit follow-up")]
       end
    ++ [SetSubmittingFollowUp false].

(** [handleDelete]. *)
Definition handleDelete (confirmed : bool) (delete : Api.Response unit)
  : list Action :=
  if negb confirmed then []
  else
    Send DeleteMeeting ::
    match delete with
    | Api.Ok _ => [ToastSuccess "Meeting deleted"; Navigate "/meetings"]
    | Api.Rejected _ => [ToastError "Failed to delete meeting"]
    end.

(** [handleFileUpload]: [chosen] tells whether the input holds a file. *)
Definition handleFileUpload (chosen : bool)
    (post : Api.Response MeetingFile.t) : list Action :=
  if negb chosen then []
  else
    [SetUploadingFile true; Send PostFile]
    ++ match post with
       | Api.Ok data =>
           [AppendMeetingFile data; ToastSuccess "File attached to meeting"]
       | Api.Rejected detail =>
           [ToastError (Js.or_string detail "Failed to upload file")]
       end
    ++ [SetUploadingFile false].

(** [handleRemoveFile(fileId)]. *)
Definition handleRemoveFile (fileId : string) (delete : Api.Response unit)
  : list Action :=
  Send (DeleteFile fileId) ::
  match delete with
  | Api.Ok _ => [RemoveMeetingFile fileId; ToastSuccess "File removed"]
  | Api.Rejected _ => [ToastError "Failed to remove file"]
  end.

(** The updater that [toggleLogExpanded(index)] passes to
    [setExpandedLogIds]: a copy of [prev] with [index] removed when it
    was in and added when it was not. *)
Definition toggleUpdater (index : nat) (prev : gset nat) : gset nat :=
  if decide (index ∈ prev) then prev ∖ {[index]} else prev ∪ {[index]}.

Definition toggleLogExpanded (index : nat) : list Action :=
  [UpdateExpandedLogIds (toggleUpdater index)].

(** ** What the component renders *)

(** The three returns of the component. *)
Inductive Page :=
| LoadingPage
| NotFoundPage
| MeetingPage (m : Meeting.t).

Definition page (st : State) : Page :=
  if loading st then LoadingPage
  else match meeting st with
       | None => NotFoundPage
       | Some m => MeetingPage m
       end.

(** Display data: the selected historical version, or the current one. *)
Definition displayOpinions (st : State) : list AgentOpinion.t :=
  Js.or_object (OpinionVersion.opinions <$> selectedVersion st)
    (Js.or_object (Meeting.opinions <$> meeting st) []).

Definition displayChairSummary (st : State) : string :=
  Js.or_string (OpinionVersion.chair_summary <$> selectedVersion st)
    (Js.or_string (Meeting.chair_summary <$> meeting st) "").

Definition displayChairRecommendation (st : State) : string :=
  Js.or_string (OpinionVersion.chair_recommendation <$> selectedVersion st)
    (Js.or_string (Meeting.chair_recommendation <$> meeting st) "").

Definition displayFollowUps (st : State) : list FollowUpQuestion.t :=
  Js.or_object (selectedVersion st ≫= OpinionVersion.follow_ups)
    (followUps st).

(** [hasHistory]. *)
Definition hasHistory (m : Meeting.t) : bool :=
  0 <? Js.or_number (Js.array_length <$> Meeting.opinion_history m) 0.

(** The number in the label [History (n)]. *)
Definition historyLabel (m : Meeting.t) : Z :=
  Js.or_number (Js.array_length <$> Meeting.opinion_history m) 0 + 1.

(** The [History] control: [hasHistory && user?.is_admin]. *)
Definition historyControl (user : option User.t) (st : State) : option Z :=
  match page st with
  | MeetingPage m =>
      if hasHistory m && user_is_admin user then Some (historyLabel m)
      else None
  | _ => None
  end.

(** The [Regenerate] button:
    [user?.is_admin && meeting.status === 'completed']. *)
Definition regenerateOffered (user : option User.t) (st : State) : bool :=
  match page st with
  | MeetingPage m =>
      user_is_admin user && Status_eqb (Meeting.status m) completed
  | _ => false
  end.

(** The [Ask Follow-up] button:
    [meeting.status === 'completed' && !selectedVersion]. *)
Definition askFollowUpOffered (st : State) : bool :=
  match page st with
  | MeetingPage m =>
      Status_eqb (Meeting.status m) completed
      && negb (bool_decide (is_Some (selectedVersion st)))
  | _ => false
  end.

(** The follow-up form: [showFollowUp && !selectedVersion]. *)
Definition followUpFormShown (st : State) : bool :=
  match page st with
  | MeetingPage _ =>
      showFollowUp st && negb (bool_decide (is_Some (selectedVersion st)))
  | _ => false
  end.

(** The chair card, rendered when [meeting.status === 'completed']:
    the summary and the recommendation it shows. *)
Definition chairCard (st : State) : option (string * string) :=
  match page st with
  | MeetingPage m =>
      if Status_eqb (Meeting.status m) completed then
        Some (displayChairSummary st, displayChairRecommendation st)
      else None
  | _ => None
  end.

(** The props of one [<OpinionCard>]. *)
Record OpinionCardProps := {
  key : string;
  opinion : AgentOpinion.t;
  index : nat
}.

Definition opinionCard (index : nat) (opinion : AgentOpinion.t)
  : OpinionCardProps :=
  {| key := AgentOpinion.agent_id opinion +:+ "-"
            +:+ Js.toString (Z.of_nat index);
     opinion := opinion;
     index := index |}.

(** [displayOpinions.map((opinion, index) => <OpinionCard ... />)]. *)
Definition opinionCards (st : State) : list OpinionCardProps :=
  imap opinionCard (displayOpinions st).

(** ** The debug-log panel *)

Definition getLogBgColor (level : string) : string :=
  if String.eqb level "error" then "bg-red-500/10 border-red-500/30"
  else if String.eqb level "warning" then
    "bg-amber-500/10 border-amber-500/30"
  else "bg-obsidian-800/30 border-obsidian-700/50".

(** One row of the list: its key, the entry it shows, its colours, and
    whether its details are unfolded
    ([log.details && expandedLogIds.has(index)]). *)
Record LogRow := {
  row_key : nat;
  row_log : DebugLog.t;
  row_class : string;
  row_expanded : bool
}.

Definition logRow (st : State) (index : nat) (log : DebugLog.t) : LogRow :=
  {| row_key := index;
     row_log := log;
     row_class := getLogBgColor (DebugLog.level log);
     row_expanded :=
       bool_decide (is_Some (DebugLog.details log))
       && bool_decide (index ∈ expandedLogIds st) |}.

(** [debugLogs = meeting?.debug_logs || []]: the array of the meeting,
    or a new empty one. *)
Definition debugLogs (st : State) : ArrayStore.M (A:=DebugLog.t) aref :=
  match meeting st ≫= Meeting.debug_logs with
  | Some r => ArrayStore.ret r
  | None => ArrayStore.alloc []
  end.

(** [[...debugLogs].reverse().map((log, index) => ...)]. *)
Definition debugLogRows (st : State) : ArrayStore.M (list LogRow) :=
  let* logs := debugLogs st in
  let* copy := ArrayStore.spread logs in
  let* reversed := ArrayStore.reverse_in_place copy in
  let* entries := ArrayStore.elements reversed in
  ArrayStore.ret (imap (logRow st) entries).

(** The panel is there when [user?.is_admin && debugLogs.length > 0],
    and its rows when [showDebugLogs]: the rows that are rendered, if
    any. *)
Definition debugPanel (user : option User.t) (st : State)
  : ArrayStore.M (option (list LogRow)) :=
  match page st with
  | MeetingPage _ =>
      let* logs := debugLogs st in
      let* entries := ArrayStore.elements logs in
      if user_is_admin user && (0 <? Js.array_length entries)
         && showDebugLogs st
      then
        let* rows := debugLogRows st in
        ArrayStore.ret (Some rows)
      else ArrayStore.ret None
  | _ => ArrayStore.ret None
  end.

(** ** The handlers around their [await]

    Each handler that awaits a request runs in two turns of the event
    loop: the actions up to the [Send] of the request, and, once the
    request is answered, the actions after it.  [handlers_around_await]
    below shows that the two parts make up the handler. *)

(** The callback of the interval once its [fetchMeeting(true)] is
    answered: [pollTick] after the request. *)
Definition pollAnswered (get : Api.Response Meeting.t) : list Action :=
  match get with
  | Api.Ok data =>
      [SetMeeting data;
       SetFollowUps (Js.or_object (Meeting.follow_ups data) []);
       SetMeetingFiles (Js.or_object (Meeting.attached_files data) [])]
      ++ (if Status_eqb (Meeting.status data) completed then
            [StopPolling; SetRegenerating false;
             ToastSuccess
               ("Meeting regenerated! Now on version "
                +:+ Js.interpolate (Meeting.current_version data))]
          else [])
  | Api.Rejected _ => []
  end.

Definition restoreBefore (version : Z) : list Action :=
  [SetRestoringVersion true; Send (PostRestore version)].

Definition restoreAfter (version : Z) (post : Api.Response Meeting.t)
  : list Action :=
  match post with
  | Api.Ok data =>
      [SetMeeting data;
       SetFollowUps (Js.or_object (Meeting.follow_ups data) []);
       SetSelectedVersion None;
       SetShowVersionHistory false;
       ToastSuccess ("Restored to version " +:+ Js.toString version)]
  | Api.Rejected detail =>
      [ToastError (Js.or_string detail "Failed to restore version")]
  end
  ++ [SetRestoringVersion false].

Definition followUpBefore (st : State) : list Action :=
  if negb (Js.truthy_string (Js.trim (followUpQuestion st))) then []
  else
    [SetSubmittingFollowUp true;
     Send (PostFollowUp (Js.trim (followUpQuestion st)))].

Definition followUpAfter (post : Api.Response FollowUpQuestion.t)
  : list Action :=
  match post with
  | Api.Ok data =>
      [AppendFollowUp data; SetFollowUpQuestion "";
       SetShowFollowUp false;
       ToastSuccess "Follow-up question submitted"]
  | Api.Rejected detail =>
      [ToastError (Js.or_string detail "Failed to submit follow-up")]
  end
  ++ [SetSubmittingFollowUp false].

Definition deleteAfter (delete : Api.Response unit) : list Action :=
  match delete with
  | Api.Ok _ => [ToastSuccess "Meeting deleted"; Navigate "/meetings"]
  | Api.Rejected _ => [ToastError "Failed to delete meeting"]
  end.

Definition uploadBefore : list Action := [SetUploadingFile true; Send PostFile].

Definition uploadAfter (post : Api.Response MeetingFile.t) : list Action :=
  match post with
  | Api.Ok data =>
      [AppendMeetingFile data; ToastSuccess "File attached to meeting"]
  | Api.Rejected detail =>
      [ToastError (Js.or_string detail "Failed to upload file")]
  end
  ++ [SetUploadingFile false].

Definition removeFileAfter (fileId : string) (delete : Api.Response unit)
  : list Action :=
  match delete with
  | Api.Ok _ => [RemoveMeetingFile fileId; ToastSuccess "File removed"]
  | Api.Rejected _ => [ToastError "Failed to remove file"]
  end.

(** ** The component as a transition system

    One event is one turn of the event loop: a click, a tick of the
    timer, or the answer of a request.  The events of a handler that
    awaits come in pairs, and any event may come between the two: the
    answers are not tied to their requests, so the sequences of events
    include every interleaving the page can go through. *)

Inductive Event :=
(* the answers of the two requests of the effect on mount, and of the
   [fetchMeeting(true)] that a failed regeneration leaves behind *)
| MeetingFetched (silent : bool) (get : Api.Response Meeting.t)
| SettingsFetched (get : Api.Response (option string))
(* the effect when [id] changes: its cleanup, then the two requests *)
| IdChanged
(* a tick of the interval, which sends [fetchMeeting(true)], and the
   answer of that request, which may come after the timer is cleared *)
| PollFired
| PollAnswered (get : Api.Response Meeting.t)
| RegenerateClicked (confirmed : bool)
| RegenerateAnswered (post : Api.Response Meeting.t)
| RestoreClicked (version : Z) (confirmed : bool)
| RestoreAnswered (version : Z) (post : Api.Response Meeting.t)
| FollowUpSubmitted
| FollowUpAnswered (post : Api.Response FollowUpQuestion.t)
| DeleteClicked (confirmed : bool)
| DeleteAnswered (delete : Api.Response unit)
| FileChosen (chosen : bool)
| FileUploadAnswered (post : Api.Response MeetingFile.t)
| RemoveFileClicked (fileId : string)
| RemoveFileAnswered (fileId : string) (delete : Api.Response unit)
| ToggleLog (index : nat)
(* the inline [onClick] and [onChange] handlers *)
| SelectVersion (v : option OpinionVersion.t)
| ToggleVersionHistory
| ToggleFollowUpForm
| CancelFollowUp
| TypeFollowUp (text : string)
| ToggleDebugLogs.

Definition handler (user : option User.t) (st : State) (e : Event)
  : list Action :=
  match e with
  | MeetingFetched silent get => fetchMeeting silent get
  | SettingsFetched get => fetchSettings user get
  | IdChanged =>
      StopPolling :: Send GetMeeting
      :: (if user_is_admin user then [Send GetSettings] else [])
  | PollFired =>
      match pollingIntervalRef st with
      | Some _ => [Send GetMeeting]
      | None => []
      end
  | PollAnswered get => pollAnswered get
  | RegenerateClicked confirmed => if confirmed then regenerateBefore else []
  | RegenerateAnswered post => regenerateAfter post
  | RestoreClicked version confirmed =>
      if confirmed then restoreBefore version else []
  | RestoreAnswered version post => restoreAfter version post
  | FollowUpSubmitted => followUpBefore st
  | FollowUpAnswered post => followUpAfter post
  | DeleteClicked confirmed => if confirmed then [Send DeleteMeeting] else []
  | DeleteAnswered delete => deleteAfter delete
  | FileChosen chosen => if chosen then uploadBefore else []
  | FileUploadAnswered post => uploadAfter post
  | RemoveFileClicked fileId => [Send (DeleteFile fileId)]
  | RemoveFileAnswered fileId delete => removeFileAfter fileId delete
  | ToggleLog index => toggleLogExpanded index
  | SelectVersion v => [SetSelectedVersion v]
  | ToggleVersionHistory =>
      [SetShowVersionHistory (negb (showVersionHistory st))]
  | ToggleFollowUpForm => [SetShowFollowUp (negb (showFollowUp st))]
  | CancelFollowUp => [SetShowFollowUp false]
  | TypeFollowUp text => [SetFollowUpQuestion text]
  | ToggleDebugLogs => [SetShowDebugLogs (negb (showDebugLogs st))]
  end.

Definition step (user : option User.t) (st : State) (e : Event) : State :=
  run (handler user st e) st.

(** The state after a sequence of events, from the initial state. *)
Definition after (user : option User.t) (es : list Event) : State :=
  fold_left (step user) es initial.

(** The period of the polling timer, while one runs. *)
Definition pollingPeriod (st : State) : option Z :=
  Js.timerDelay <$> pollingIntervalRef st.

(** ** The history menu *)

(** One line of the menu: the version number it names, whether it is the
    line of the current version, whether it carries the [Viewing] badge
    and whether it carries a [Restore This Version] button. *)
Record HistoryEntry := {
  entry_version : option Z;
  entry_current : bool;
  entry_viewing : bool;
  entry_restore : bool
}.

(** The line [Version n (Current)], marked when [!selectedVersion]. *)
Definition currentEntry (st : State) (m : Meeting.t) : HistoryEntry :=
  {| entry_version := Meeting.current_version m;
     entry_current := true;
     entry_viewing := negb (bool_decide (is_Some (selectedVersion st)));
     entry_restore := false |}.

(** [selectedVersion?.version === version.version]. *)
Definition isViewing (st : State) (version : OpinionVersion.t) : bool :=
  match selectedVersion st with
  | Some selected =>
      OpinionVersion.version selected =? OpinionVersion.version version
  | None => false
  end.

Definition historicalEntry (st : State) (version : OpinionVersion.t)
  : HistoryEntry :=
  {| entry_version := Some (OpinionVersion.version version);
     entry_current := false;
     entry_viewing := isViewing st version;
     entry_restore := isViewing st version |}.

(** The open menu: the current version, then
    [[...(meeting.opinion_history || [])].reverse().map(...)]. *)
Definition historyMenu (user : option User.t) (st : State)
  : option (list HistoryEntry) :=
  match page st with
  | MeetingPage m =>
      if hasHistory m && user_is_admin user && showVersionHistory st then
        Some (currentEntry st m
              :: (historicalEntry st
                    <$> reverse (Js.or_object (Meeting.opinion_history m) [])))
      else None
  | _ => None
  end.

(** The version that the [Restore This Version] button of the preview
    notice restores: [handleRestoreVersion(selectedVersion.version)]. *)
Definition noticeRestores (st : State) : option Z :=
  match page st with
  | MeetingPage _ => OpinionVersion.version <$> selectedVersion st
  | _ => None
  end.

(** ** The head of the debug-log panel *)

(** [log.level === level]. *)
Definition isLevel (level : string) (log : DebugLog.t) : bool :=
  String.eqb (DebugLog.level log) level.

(** [debugLogs.some(log => log.level === 'error')] and its sibling, on
    the entries of the array. *)
Definition hasErrors (logs : list DebugLog.t) : bool :=
  existsb (isLevel "error") logs.

Definition hasWarnings (logs : list DebugLog.t) : bool :=
  existsb (isLevel "warning") logs.

(** [debugLogs.filter(l => l.level === level).length]. *)
Definition levelCount (level : string) (logs : list DebugLog.t) : Z :=
  Js.array_length (List.filter (isLevel level) logs).

(** What the head of the panel shows: the number of entries, the number
    of errors and of warnings when there are any, and the border of the
    card. *)
Record DebugSummary := {
  summary_entries : Z;
  summary_errors : option Z;
  summary_warnings : option Z;
  summary_border : string
}.

Definition debugSummary (logs : list DebugLog.t) : DebugSummary :=
  {| summary_entries := Js.array_length logs;
     summary_errors :=
       if hasErrors logs then Some (levelCount "error" logs) else None;
     summary_warnings :=
       if hasWarnings logs then Some (levelCount "warning" logs) else None;
     summary_border :=
       if hasErrors logs then "border-red-500/30"
       else if hasWarnings logs then "border-amber-500/30"
       else "border-obsidian-700" |}.

(** The page shows the current version [data] and nothing else: the
    meeting is [data], no historical version is selected, and the
    opinions, chair texts and follow-ups on display are those of [data]. *)
Definition showsCurrent (st : State) (data : Meeting.t) : Prop :=
  meeting st = Some data
  /\ selectedVersion st = None
  /\ followUps st = Js.or_object (Meeting.follow_ups data) []
  /\ displayOpinions st = Meeting.opinions data
  /\ displayChairSummary st = Meeting.chair_summary data
  /\ displayChairRecommendation st = Meeting.chair_recommendation data
  /\ displayFollowUps st = Js.or_object (Meeting.follow_ups data) [].

(** Every timer value the state holds is at least 500 ms. *)
Definition interval_ok (st : State) : Prop :=
  500 <= pollingIntervalMs st
  /\ (forall ms, pollingIntervalRef st = Some ms -> 500 <= ms).

(** A timer runs only while the page is regenerating. *)
Definition timer_while_regenerating (st : State) : Prop :=
  is_Some (pollingIntervalRef st) -> regenerating st = true.

(** An action that cannot break [interval_ok]. *)
Definition keeps_interval (a : Action) : Prop :=
  match a with
  | SetPollingIntervalMs ms => 500 <= ms
  | _ => True
  end.

(** A state with rows 0 and 2 of the debug log unfolded. *)
Definition rows_0_2_unfolded : State :=
  set_expandedLogIds {[0%nat; 2%nat]} initial.

End MeetingDetail.

(* ===================================================================== *)
(** * The Version Manager of the server                                   *)
(* ===================================================================== *)

Module VersionManager.

(** Modelled from the spec: the stored [Meeting] aggregate of the server
    (section 3, "Meeting"), whose code is not among the front-end
    sources.  Only the fields the version life cycle reads or writes are
    kept: current opinions, chair summary and recommendation, status,
    current version number, the ordered list of archived versions and
    the follow-up list. *)
Record StoredMeeting := {
  opinions : list AgentOpinion.t;
  chair_summary : string;
  chair_recommendation : string;
  status : Status;
  current_version : Z;
  opinion_history : list OpinionVersion.t;
  follow_ups : list FollowUpQuestion.t
}.

(** Modelled from the spec: what one generation cycle (fan-out 4.2, then
    chair synthesis 4.3) hands to the Version Manager when it does not
    fail: the opinions of the agents that succeeded, in hire order, and
    the chair's summary and recommendation. *)
Record Generation := {
  gen_opinions : list AgentOpinion.t;
  gen_summary : string;
  gen_recommendation : string
}.

(** Modelled from the spec: the failures of section 7 that the Version
    Manager reports. *)
Inductive Error :=
| StateConflictError
| GenerationFailed.

(** Modelled from the spec: a cycle succeeds when at least one agent
    opinion and a non-empty summary and recommendation all exist
    (sections 4.2, 4.3, 8 and the open question of section 9); [None]
    is a cycle that the fan-out or the chair stage reported as fatal. *)
Definition succeeded (outcome : option Generation) : option Generation :=
  match outcome with
  | Some g =>
      if (0 <? Js.array_length (gen_opinions g))
         && Js.truthy_string (gen_summary g)
         && Js.truthy_string (gen_recommendation g)
      then Some g else None
  | None => None
  end.

(** Modelled from the spec: [create] (section 4.4): on success the
    meeting is [completed] with version 1 and an empty history; a failed
    creation leaves no meeting. *)
Definition create (outcome : option Generation) : Error + StoredMeeting :=
  match succeeded outcome with
  | Some g =>
      inr {| opinions := gen_opinions g;
             chair_summary := gen_summary g;
             chair_recommendation := gen_recommendation g;
             status := completed;
             current_version := 1;
             opinion_history := [];
             follow_ups := [] |}
  | None => inl GenerationFailed
  end.

(** Modelled from the spec: the snapshot that archives the current
    state (sections 3 "OpinionVersion" and 4.4): version number,
    opinions, summary, recommendation and the follow-up list as it
    stands, with the time and the user of the operation. *)
Definition archive (m : StoredMeeting) (now : string) (by_user : option Z)
  : OpinionVersion.t :=
  {| OpinionVersion.version := current_version m;
     OpinionVersion.opinions := opinions m;
     OpinionVersion.chair_summary := chair_summary m;
     OpinionVersion.chair_recommendation := chair_recommendation m;
     OpinionVersion.follow_ups := Some (follow_ups m);
     OpinionVersion.generated_at := now;
     OpinionVersion.generated_by := by_user |}.

(** Modelled from the spec: [regenerate] (section 4.4), only from
    [completed]: the current state is appended to the history, the
    cycle is run again, and on success [current_version] increments; a
    failed attempt leaves the meeting as it was (section 7).  The spec
    does not say which follow-ups the regenerated state carries: that
    list is the argument [carried]. *)
Definition regenerate (now : string) (by_user : option Z)
    (outcome : option Generation) (carried : list FollowUpQuestion.t)
    (m : StoredMeeting) : Error + StoredMeeting :=
  match status m with
  | in_progress => inl StateConflictError
  | completed =>
      match succeeded outcome with
      | Some g =>
          inr {| opinions := gen_opinions g;
                 chair_summary := gen_summary g;
                 chair_recommendation := gen_recommendation g;
                 status := completed;
                 current_version := current_version m + 1;
                 opinion_history :=
                   opinion_history m ++ [archive m now by_user];
                 follow_ups := carried |}
      | None => inl GenerationFailed
      end
  end.

(** Modelled from the spec: the history entry that holds version [v]. *)
Definition find_version (v : Z) (history : list OpinionVersion.t)
  : option OpinionVersion.t :=
  List.find (fun ov => OpinionVersion.version ov =? v) history.

(** Modelled from the spec: [restore(v)] (section 4.4): the current
    state is appended to the history, version [v]'s opinions, summary,
    recommendation and follow-ups become the current state, and
    [current_version] increments; a meeting that is not [completed] or a
    version that does not exist is a state conflict (section 7). *)
Definition restore (now : string) (by_user : option Z) (v : Z)
    (m : StoredMeeting) : Error + StoredMeeting :=
  match status m with
  | in_progress => inl StateConflictError
  | completed =>
      match find_version v (opinion_history m) with
      | Some ov =>
          inr {| opinions := OpinionVersion.opinions ov;
                 chair_summary := OpinionVersion.chair_summary ov;
                 chair_recommendation :=
                   OpinionVersion.chair_recommendation ov;
                 status := completed;
                 current_version := current_version m + 1;
                 opinion_history :=
                   opinion_history m ++ [archive m now by_user];
                 follow_ups :=
                   Js.or_object (OpinionVersion.follow_ups ov) [] |}
      | None => inl StateConflictError
      end
  end.

(** Modelled from the spec: the Follow-Up Processor (section 4.5): on a
    [completed] meeting, one chair call; its answer is appended to the
    current follow-up list, stamped with the current version, and no
    version is created.  [chair] is the answer, [None] when the call
    failed. *)
Definition follow_up (id now question : string) (chair : option string)
    (m : StoredMeeting) : Error + StoredMeeting :=
  match status m, chair with
  | completed, Some response =>
      inr {| opinions := opinions m;
             chair_summary := chair_summary m;
             chair_recommendation := chair_recommendation m;
             status := completed;
             current_version := current_version m;
             opinion_history := opinion_history m;
             follow_ups :=
               follow_ups m
               ++ [{| FollowUpQuestion.id := id;
                      FollowUpQuestion.question := question;
                      FollowUpQuestion.chair_response := Some response;
                      FollowUpQuestion.created_at := now;
                      FollowUpQuestion.version :=
                        Some (current_version m) |}] |}
  | completed, None => inl GenerationFailed
  | in_progress, _ => inl StateConflictError
  end.

(** The meetings that successful operations produce. *)
Inductive reachable : StoredMeeting -> Prop :=
| reach_create outcome m :
    create outcome = inr m -> reachable m
| reach_regenerate now by_user outcome carried m m' :
    reachable m ->
    regenerate now by_user outcome carried m = inr m' -> reachable m'
| reach_restore now by_user v m m' :
    reachable m ->
    restore now by_user v m = inr m' -> reachable m'
| reach_follow_up id now question chair m m' :
    reachable m ->
    follow_up id now question chair m = inr m' -> reachable m'.

(** Modelled from the spec: the body of a meeting response carries the
    stored version number and history (section 3, "Meeting"). *)
Definition served (m : StoredMeeting) (data : Meeting.t) : Prop :=
  Meeting.current_version data = Some (current_version m)
  /\ Meeting.opinion_history data = Some (opinion_history m).

(** The version number counts the archived versions and the current one. *)
Definition counts_versions (m : StoredMeeting) : Prop :=
  current_version m = Js.array_length (opinion_history m) + 1.

End VersionManager.

(* ===================================================================== *)
(** * Sample data                                                         *)
(* ===================================================================== *)

Module Examples.

Import MeetingDetail.

Definition weights : AgentWeights.t :=
  {| AgentWeights.finance := 1; AgentWeights.technology := 0;
     AgentWeights.operations := 0; AgentWeights.people_hr := 0;
     AgentWeights.logistics := 0 |}%Q.

Definition sample_opinion (agent text : string) (confidence : Q)
  : AgentOpinion.t :=
  {| AgentOpinion.agent_id := agent;
     AgentOpinion.agent_name := agent;
     AgentOpinion.agent_role := "Executive";
     AgentOpinion.opinion := text;
     AgentOpinion.reasoning := "";
     AgentOpinion.confidence := confidence;
     AgentOpinion.weights_applied := weights;
     AgentOpinion.timestamp := "2025-01-01T10:00:00" |}.

(** Hired first, least confident. *)
Definition cfo := sample_opinion "cfo" "Cut costs" (3 # 10).
Definition cto := sample_opinion "cto" "Rewrite it" (9 # 10).

Definition sample_follow_up (id : string) (v : Z) : FollowUpQuestion.t :=
  {| FollowUpQuestion.id := id;
     FollowUpQuestion.question := "And then?";
     FollowUpQuestion.chair_response := Some "Proceed.";
     FollowUpQuestion.created_at := "2025-01-03T10:00:00";
     FollowUpQuestion.version := Some v |}.

(** A follow-up asked at version 3. *)
Definition asked_at_3 := sample_follow_up "f3" 3.

(** The snapshot of version 1, with and without a [follow_ups] field. *)
Definition version_1 (fu : option (list FollowUpQuestion.t))
  : OpinionVersion.t :=
  {| OpinionVersion.version := 1;
     OpinionVersion.opinions := [cfo; cto];
     OpinionVersion.chair_summary := "First summary";
     OpinionVersion.chair_recommendation := "First recommendation";
     OpinionVersion.follow_ups := fu;
     OpinionVersion.generated_at := "2025-01-01T10:00:00";
     OpinionVersion.generated_by := Some 1 |}.

Definition version_2 : OpinionVersion.t :=
  {| OpinionVersion.version := 2;
     OpinionVersion.opinions := [cto];
     OpinionVersion.chair_summary := "Second summary";
     OpinionVersion.chair_recommendation := "Second recommendation";
     OpinionVersion.follow_ups := Some [];
     OpinionVersion.generated_at := "2025-01-02T10:00:00";
     OpinionVersion.generated_by := Some 1 |}.

(** A meeting on its third version. *)
Definition meeting_3 (status : Status) (history : list OpinionVersion.t)
  : Meeting.t :=
  {| Meeting.id := "m1";
     Meeting.user_id := 1;
     Meeting.question := "Should we expand?";
     Meeting.context := None;
     Meeting.opinions := [cto; cfo];
     Meeting.chair_summary := "Third summary";
     Meeting.chair_recommendation := "Third recommendation";
     Meeting.status := status;
     Meeting.created_at := "2025-01-01T09:00:00";
     Meeting.completed_at := Some "2025-01-03T09:00:00";
     Meeting.follow_ups := Some [asked_at_3];
     Meeting.attached_files := None;
     Meeting.current_version := Some 3;
     Meeting.opinion_history := Some history;
     Meeting.debug_logs := Some 0%nat |}.

Definition admin : User.t :=
  {| User.id := 1; User.email := "admin@example.com";
     User.username := "admin"; User.full_name := None;
     User.company_name := None; User.is_admin := true;
     User.is_active := true; User.hired_agents := ["cfo"; "cto"];
     User.created_at := "2025-01-01T08:00:00"; User.updated_at := None |}.

(** The stored meeting behind [meeting_3]: created, regenerated twice,
    then asked one follow-up. *)
Definition stored_1 : VersionManager.StoredMeeting :=
  {| VersionManager.opinions := [cfo; cto];
     VersionManager.chair_summary := "First summary";
     VersionManager.chair_recommendation := "First recommendation";
     VersionManager.status := completed;
     VersionManager.current_version := 1;
     VersionManager.opinion_history := [];
     VersionManager.follow_ups := [] |}.

Definition stored_2 : VersionManager.StoredMeeting :=
  {| VersionManager.opinions := [cto];
     VersionManager.chair_summary := "Second summary";
     VersionManager.chair_recommendation := "Second recommendation";
     VersionManager.status := completed;
     VersionManager.current_version := 2;
     VersionManager.opinion_history := [version_1 (Some [])];
     VersionManager.follow_ups := [] |}.

Definition stored_3 (fu : list FollowUpQuestion.t)
  : VersionManager.StoredMeeting :=
  {| VersionManager.opinions := [cto; cfo];
     VersionManager.chair_summary := "Third summary";
     VersionManager.chair_recommendation := "Third recommendation";
     VersionManager.status := completed;
     VersionManager.current_version := 3;
     VersionManager.opinion_history := [version_1 (Some []); version_2];
     VersionManager.follow_ups := fu |}.

Definition sample_log (level message : string) : DebugLog.t :=
  {| DebugLog.level := level;
     DebugLog.agent_name := "system";
     DebugLog.timestamp := "2025-01-03T09:00:00";
     DebugLog.message := message;
     DebugLog.details := None |}.

(** A store whose array 0 holds two entries, oldest first. *)
Definition two_logs : gmap nat (list DebugLog.t) :=
  {[ 0%nat := [sample_log "info" "started"; sample_log "error" "timeout"] ]}.

(** The page once the meeting has loaded. *)
Definition loaded (m : Meeting.t) : State :=
  step (Some admin) initial (MeetingFetched false (Api.Ok m)).

(** The same page with a historical version selected for preview. *)
Definition previewing (m : Meeting.t) (v : OpinionVersion.t) : State :=
  step (Some admin) (loaded m) (SelectVersion (Some v)).

(** A page on which a regeneration is under way: version 1 is being
    previewed and the timer runs. *)
Definition regenerating_page : State :=
  set_pollingIntervalRef (Some 2000)
    (set_regenerating true
       (previewing (meeting_3 completed [version_1 (Some [])])
          (version_1 (Some [])))).

Definition sample_file (id : string) : MeetingFile.t :=
  {| MeetingFile.id := id;
     MeetingFile.filename := "plan.pdf";
     MeetingFile.file_type := "pdf";
     MeetingFile.uploaded_at := "2025-01-03T11:00:00" |}.

(** A page with two attached files. *)
Definition with_files : State :=
  set_meetingFiles [sample_file "a"; sample_file "b"]
    (loaded (meeting_3 completed [])).

(** The page of [meeting_3] with the history menu open and version 1
    selected. *)
Definition menu_open : State :=
  set_showVersionHistory true
    (previewing (meeting_3 completed [version_1 (Some []); version_2])
       (version_1 (Some []))).

(** The settings page with a key typed between two spaces. *)
Definition key_typed : AdminSettingsPage.State :=
  AdminSettingsPage.apply (AdminSettingsPage.SetApiKey " sk-test ")
    AdminSettingsPage.initial.

(** Settings as the server returns them after limits of 600 and 500 were
    saved. *)
Definition saved_settings : gmap string string :=
  {[ "agent_max_tokens" := "600"; "chair_max_tokens" := "500" ]}.

(** The settings page with limits typed the long way. *)
Definition limits_typed : AdminSettingsPage.State :=
  AdminSettingsPage.run
    [AdminSettingsPage.SetAgentMaxTokens "600.5";
     AdminSettingsPage.SetChairMaxTokens " 0x1F4"]
    AdminSettingsPage.initial.

(** What the storage holds after [admin] has logged in. *)
Definition admin_session : AuthStore.Persisted :=
  {| AuthStore.persisted_token := Some "tok-1";
     AuthStore.persisted_isAuthenticated := true;
     AuthStore.persisted_user := Some admin |}.

(** An admin loads a completed meeting, opens the follow-up form and
    types a question. *)
Definition form_opened : list Event :=
  [MeetingFetched false (Api.Ok (meeting_3 completed []));
   ToggleFollowUpForm;
   TypeFollowUp "And then?"].

(** The admin then starts a regeneration, and the first tick of the
    timer finds the meeting in progress. *)
Definition form_open_while_regenerating : list Event :=
  form_opened
  ++ [RegenerateClicked true; PollFired;
      PollAnswered (Api.Ok (meeting_3 in_progress []))].

(** The page of a completed meeting, for an admin whose settings hold a
    polling interval of 3000000000 ms. *)
Definition long_interval_set : list Event :=
  [MeetingFetched false (Api.Ok (meeting_3 completed []));
   SettingsFetched (Api.Ok (Some "3000000000"))].

(** The admin then starts a regeneration. *)
Definition long_interval : list Event :=
  long_interval_set ++ [RegenerateClicked true].

(** The settings hold a polling interval of one second, and the admin
    starts a regeneration. *)
Definition one_second_interval : list Event :=
  [MeetingFetched false (Api.Ok (meeting_3 completed []));
   SettingsFetched (Api.Ok (Some "1000"));
   RegenerateClicked true].

(** Weights of 0.75 for finance, 0.25 for technology, 0.5 for operations
    and for people, none for logistics. *)
Definition finance_first : AgentWeights.t :=
  {| AgentWeights.finance := 3 # 4; AgentWeights.technology := 1 # 4;
     AgentWeights.operations := 1 # 2; AgentWeights.people_hr := 1 # 2;
     AgentWeights.logistics := 0 |}%Q.

End Examples.

(* ===================================================================== *)
(** * Properties                                                          *)
(* ===================================================================== *)

Section TokenLimits.

Import AdminSettings.

Lemma out_of_range_within t : out_of_range t = false <-> within_limits t.
Proof.
  unfold out_of_range, within_limits.
  destruct t as [n|]; cbn.
  - rewrite !orb_false_iff, !Z.ltb_ge. split.
    + intros [H1 H2]. exists n. split; [reflexivity | lia].
    + intros (k & [= <-] & Hk). lia.
  - split; [discriminate | intros (k & [=] & _)].
Qed.

(** C4.  [handleSaveTokenLimits] sends the settings update exactly when
    both inputs parse to a number between 500 and 16000; the request
    then carries the two parsed numbers.  In every other case the
    handler does nothing but show one of the two range messages. *)
Theorem handleSaveTokenLimits_gate (agent chair : string)
    (put : Api.Response unit) :
  ((exists url body,
      ApiPut url body ∈ handleSaveTokenLimits agent chair put)
   <-> within_limits (Js.parseInt agent)
       /\ within_limits (Js.parseInt chair))
  /\ (forall a c,
        Js.parseInt agent = Some a -> Js.parseInt chair = Some c ->
        500 <= a <= 16000 -> 500 <= c <= 16000 ->
        ApiPut "/api/admin/settings"
          [("agent_max_tokens", Js.toString a);
           ("chair_max_tokens", Js.toString c)]
        ∈ handleSaveTokenLimits agent chair put)
  /\ (~ (within_limits (Js.parseInt agent)
         /\ within_limits (Js.parseInt chair)) ->
      handleSaveTokenLimits agent chair put = [ToastError agent_range_msg]
      \/ handleSaveTokenLimits agent chair put = [ToastError chair_range_msg]).
Proof.
  unfold handleSaveTokenLimits.
  destruct (out_of_range (Js.parseInt agent)) eqn:Ea;
    [| destruct (out_of_range (Js.parseInt chair)) eqn:Ec].
  - assert (Hn : ~ within_limits (Js.parseInt agent))
      by (intros H; apply out_of_range_within in H; congruence).
    split; [split |split].
    + intros (url & body & H). apply list_elem_of_singleton in H. discriminate.
    + intros [H _]. contradiction.
    + intros a c Ha _ Hr _. destruct Hn. exists a. auto.
    + intros _. left. reflexivity.
  - assert (Hn : ~ within_limits (Js.parseInt chair))
      by (intros H; apply out_of_range_within in H; congruence).
    split; [split |split].
    + intros (url & body & H). apply list_elem_of_singleton in H. discriminate.
    + intros [_ H]. contradiction.
    + intros a c _ Hc _ Hr. destruct Hn. exists c. auto.
    + intros _. right. reflexivity.
  - apply out_of_range_within in Ea, Ec.
    split; [split |split].
    + intros _. auto.
    + intros _. eexists _, _. cbn. apply list_elem_of_further, list_elem_of_here.
    + intros a c -> -> _ _. cbn. apply list_elem_of_further, list_elem_of_here.
    + intros H. destruct H. auto.
Qed.

(** The gate at a sent and at a refused input. *)
Lemma handleSaveTokenLimits_gate_witness :
  ApiPut "/api/admin/settings"
    [("agent_max_tokens", "600"); ("chair_max_tokens", "500")]
  ∈ handleSaveTokenLimits "600.5" " 0x1F4" (Api.Ok tt)
  /\ (handleSaveTokenLimits "1e3" "3000" (Api.Ok tt)
      = [ToastError agent_range_msg]
      \/ handleSaveTokenLimits "1e3" "3000" (Api.Ok tt)
         = [ToastError chair_range_msg]).
Proof.
  split.
  - apply (proj1 (proj2 (handleSaveTokenLimits_gate
                           "600.5" " 0x1F4" (Api.Ok tt))) 600 500);
      [reflexivity | reflexivity | lia | lia].
  - apply (proj2 (proj2 (handleSaveTokenLimits_gate
                           "1e3" "3000" (Api.Ok tt)))).
    intros [(n & Hn & Hr) _]. vm_compute in Hn.
    injection Hn as <-. lia.
Defined.

End TokenLimits.

Section ExpandedLogs.

Import MeetingDetail.

Lemma toggleUpdater_elem (i j : nat) (s : gset nat) :
  j ∈ toggleUpdater i s <-> (j = i /\ i ∉ s) \/ (j <> i /\ j ∈ s).
Proof.
  unfold toggleUpdater. case_decide as Hi.
  - rewrite elem_of_difference, elem_of_singleton.
    destruct (decide (j = i)) as [->|Hne]; tauto.
  - rewrite elem_of_union, elem_of_singleton.
    destruct (decide (j = i)) as [->|Hne]; tauto.
Qed.

Lemma toggleUpdater_twice (i : nat) (s : gset nat) :
  toggleUpdater i (toggleUpdater i s) = s.
Proof.
  apply set_eq. intros j. rewrite !toggleUpdater_elem.
  destruct (decide (j = i)) as [->|Hne]; destruct (decide (i ∈ s)); tauto.
Qed.

Lemma expandedLogIds_toggle (user : option User.t) (st : State) (i : nat) :
  expandedLogIds (step user st (ToggleLog i))
  = toggleUpdater i (expandedLogIds st).
Proof. reflexivity. Qed.

(** C10.  [toggleLogExpanded] is an involution that only touches its
    argument: toggling index [i] twice gives back the set of expanded
    indices, and one toggle flips the membership of [i] and leaves the
    membership of every other index as it was. *)
Theorem toggleLogExpanded_involutive_local
    (user : option User.t) (st : State) (i : nat) :
  let once := step user st (ToggleLog i) in
  let twice := step user once (ToggleLog i) in
  expandedLogIds twice = expandedLogIds st
  /\ (i ∈ expandedLogIds once <-> i ∉ expandedLogIds st)
  /\ (forall j, j <> i ->
        (j ∈ expandedLogIds once <-> j ∈ expandedLogIds st)).
Proof.
  cbv zeta. rewrite !expandedLogIds_toggle. split; [| split].
  - apply toggleUpdater_twice.
  - rewrite toggleUpdater_elem. tauto.
  - intros j Hj. rewrite toggleUpdater_elem. tauto.
Qed.

(** Toggling row 2 while rows 0 and 2 are unfolded: row 0 stays unfolded. *)
Lemma toggleLogExpanded_involutive_local_witness :
  0%nat ∈ expandedLogIds (step None rows_0_2_unfolded (ToggleLog 2))
  <-> 0%nat ∈ expandedLogIds rows_0_2_unfolded.
Proof.
  apply (proj2 (proj2 (toggleLogExpanded_involutive_local
                         None rows_0_2_unfolded 2%nat)) 0%nat).
  lia.
Defined.

End ExpandedLogs.

Section Polling.

Import MeetingDetail.

Lemma apply_interval_ok a st :
  keeps_interval a -> interval_ok st -> interval_ok (apply a st).
Proof.
  unfold interval_ok.
  destruct a; cbn; intros Hk [H1 H2]; try (split; assumption).
  - unfold startPolling. destruct (pollingIntervalRef st) eqn:E; cbn.
    + split; [assumption | now rewrite E].
    + split; [assumption | now intros ms [= <-]].
  - unfold stopPolling. destruct (pollingIntervalRef st) eqn:E; cbn.
    + split; [assumption | discriminate].
    + split; [assumption | now rewrite E].
Qed.

Lemma run_interval_ok acts : forall st,
  Forall keeps_interval acts -> interval_ok st -> interval_ok (run acts st).
Proof.
  induction acts as [|a acts IH]; intros st Hall Hst; cbn; [assumption |].
  inversion Hall; subst. apply IH; [assumption |]. now apply apply_interval_ok.
Qed.

Lemma fetchSettings_keeps user get :
  Forall keeps_interval (fetchSettings user get).
Proof.
  unfold fetchSettings.
  destruct (user_is_admin user); cbn; [| constructor].
  constructor; [exact I |].
  destruct get as [[s|]|]; try constructor.
  destruct (Js.truthy_string s); [| constructor].
  destruct (Js.parseInt s) as [n|] eqn:E; cbn; [| constructor].
  destruct (500 <=? n) eqn:Hn; constructor; [| constructor].
  cbn. now apply Z.leb_le.
Qed.

Lemma Forall_keeps_app l1 l2 :
  Forall keeps_interval l1 -> Forall keeps_interval l2 ->
  Forall keeps_interval (l1 ++ l2).
Proof. intros. apply Forall_app. auto. Qed.

Ltac keeps_interval_auto :=
  repeat first
    [ apply Forall_nil
    | apply fetchSettings_keeps
    | apply List.Forall_cons; [exact I |]
    | exact I
    | apply Forall_keeps_app
    | match goal with
      | |- context [match ?x with _ => _ end] => destruct x; cbn
      end ].

Lemma handler_keeps user st e : Forall keeps_interval (handler user st e).
Proof.
  destruct e; cbn;
    unfold pollAnswered, fetchMeeting, regenerateBefore, regenerateAfter,
      restoreBefore, restoreAfter, followUpBefore, followUpAfter,
      deleteAfter, uploadBefore, uploadAfter, removeFileAfter,
      toggleLogExpanded;
    keeps_interval_auto.
Qed.

Lemma after_snoc user es e :
  after user (es ++ [e]) = step user (after user es) e.
Proof. unfold after. now rewrite fold_left_app. Qed.

Lemma after_interval_ok user es : interval_ok (after user es).
Proof.
  induction es as [|e es IH] using rev_ind.
  - unfold after, interval_ok. cbn. split; [lia | discriminate].
  - rewrite after_snoc. unfold step. apply run_interval_ok; [| assumption].
    apply handler_keeps.
Qed.

(** What [fetchSettings] does to [pollingIntervalMs]. *)
Lemma fetchSettings_pollingIntervalMs user get st :
  pollingIntervalMs (run (fetchSettings user get) st)
  = match get with
    | Api.Ok (Some s) =>
        match Js.parseInt s with
        | Some n =>
            if user_is_admin user && (500 <=? n) then n
            else pollingIntervalMs st
        | None => pollingIntervalMs st
        end
    | _ => pollingIntervalMs st
    end.
Proof.
  unfold fetchSettings.
  destruct (user_is_admin user); cbn.
  2:{ destruct get as [[s|]|]; try reflexivity. now destruct (Js.parseInt s). }
  destruct get as [[s|]|]; try reflexivity.
  destruct s as [|c s]; [reflexivity |].
  cbn [Js.truthy_string].
  destruct (Js.parseInt (String c s)) as [n|]; cbn; [| reflexivity].
  now destruct (500 <=? n).
Qed.

(** A delay in the range of a [long] is the delay of the timer. *)
Lemma timerDelay_in_range ms : 0 <= ms <= 2147483647 -> Js.timerDelay ms = ms.
Proof.
  intros H. unfold Js.timerDelay, Js.toLong.
  rewrite Z.mod_small by lia.
  destruct (Z.ltb_spec ms 2147483648); lia.
Qed.

(** The state cell [pollingIntervalMs] is never below 500: it starts at
    2000 and stays at least 500 after any sequence of events;
    [fetchSettings] changes it only for an admin whose [polling_interval]
    setting parses to a number that is at least 500, and then to that
    number.  A timer that runs was created with a delay argument of at
    least 500, and has that period when the argument is in the range of
    a [long]. *)
Lemma pollingIntervalMs_at_least_500 (user : option User.t) :
  pollingIntervalMs initial = 2000
  /\ (forall es, 500 <= pollingIntervalMs (after user es))
  /\ (forall es ms, pollingIntervalRef (after user es) = Some ms -> 500 <= ms)
  /\ (forall st get,
        pollingIntervalMs (run (fetchSettings user get) st)
          <> pollingIntervalMs st ->
        user_is_admin user = true
        /\ exists s n, get = Api.Ok (Some s) /\ Js.parseInt s = Some n
                       /\ 500 <= n
                       /\ pollingIntervalMs (run (fetchSettings user get) st) = n)
  /\ (forall st s n,
        user_is_admin user = true -> Js.parseInt s = Some n -> 500 <= n ->
        pollingIntervalMs (run (fetchSettings user (Api.Ok (Some s))) st) = n)
  /\ (forall es ms,
        pollingIntervalRef (after user es) = Some ms -> ms <= 2147483647 ->
        pollingPeriod (after user es) = Some ms /\ 500 <= ms).
Proof.
  split; [reflexivity |]. split; [| split; [| split; [| split]]].
  - intros es. apply after_interval_ok.
  - intros es. apply after_interval_ok.
  - intros st get. rewrite fetchSettings_pollingIntervalMs.
    destruct get as [[s|]|]; try congruence.
    destruct (Js.parseInt s) as [n|] eqn:E; try congruence.
    destruct (user_is_admin user); cbn; try congruence.
    destruct (500 <=? n) eqn:Hn; try congruence.
    intros _. split; [reflexivity |]. exists s, n.
    apply Z.leb_le in Hn. auto.
  - intros st s n Hadm Hp Hn. rewrite fetchSettings_pollingIntervalMs, Hp, Hadm.
    apply Z.leb_le in Hn. now rewrite Hn.
  - intros es ms Href Hmax.
    assert (Hmin : 500 <= ms) by (eapply after_interval_ok; eassumption).
    split; [| assumption].
    unfold pollingPeriod. rewrite Href. cbn.
    now rewrite timerDelay_in_range by lia.
Qed.

(** An admin whose settings hold a polling interval of one second starts
    a regeneration: the timer ticks every second. *)
Lemma pollingIntervalMs_at_least_500_witness :
  pollingPeriod (after (Some Examples.admin) Examples.one_second_interval)
  = Some 1000
  /\ 500 <= 1000.
Proof.
  apply (proj2 (proj2 (proj2 (proj2 (proj2
           (pollingIntervalMs_at_least_500 (Some Examples.admin))))))
           Examples.one_second_interval 1000);
    [reflexivity | lia].
Defined.

(** C9.  The polling period can be far below 500 ms.  The settings of an
    admin hold the polling interval ["3000000000"]: it parses to a number
    that passes the guard [interval >= 500] of [fetchSettings], which has
    no upper bound, so the cell [pollingIntervalMs] takes it; the admin
    starts a regeneration and [startPolling] hands the number to
    [setInterval], whose delay is a 32-bit [long]: the timer that runs
    has the delay 0, and each of its ticks sends a request. *)
Theorem polling_period_under_500 :
  let user := Some Examples.admin in
  let st := after user Examples.long_interval in
  Js.parseInt "3000000000" = Some 3000000000
  /\ regenerateOffered user (after user Examples.long_interval_set) = true
  /\ pollingIntervalMs st = 3000000000
  /\ regenerating st = true
  /\ pollingIntervalRef st = Some 3000000000
  /\ pollingPeriod st = Some 0
  /\ handler user st PollFired = [Send GetMeeting].
Proof. cbv zeta. repeat split; reflexivity. Qed.

End Polling.

Section FailedAttempts.

Import MeetingDetail.

(** C5.  A failed restore or follow-up leaves every cell of the page state
    as it was, the busy flag of the handler apart (it is raised before the
    request and lowered after it): on a rejected request
    [handleRestoreVersion] and [handleFollowUpSubmit] do nothing in
    between but show the error, so the meeting, the follow-up list and
    the selected version are the ones from before the attempt;
    [handleFollowUpSubmit] appends to the follow-up list only the answer
    of a request that succeeded. *)
Theorem failed_attempt_keeps_meeting_state (st : State) :
  (forall version detail,
     handleRestoreVersion version true (Api.Rejected detail)
     = [SetRestoringVersion true; Send (PostRestore version);
        ToastError (Js.or_string detail "Failed to restore version");
        SetRestoringVersion false])
  /\ (forall version confirmed detail,
        let st' :=
          run (handleRestoreVersion version confirmed (Api.Rejected detail)) st
        in
        set_restoringVersion (restoringVersion st) st' = st
        /\ meeting st' = meeting st
        /\ followUps st' = followUps st
        /\ selectedVersion st' = selectedVersion st
        /\ (restoringVersion st = false -> st' = st))
  /\ (forall detail,
        Js.trim (followUpQuestion st) <> "" ->
        handleFollowUpSubmit st (Api.Rejected detail)
        = [SetSubmittingFollowUp true;
           Send (PostFollowUp (Js.trim (followUpQuestion st)));
           ToastError (Js.or_string detail "Failed to submit follow-up");
           SetSubmittingFollowUp false])
  /\ (forall detail,
        let st' := run (handleFollowUpSubmit st (Api.Rejected detail)) st in
        set_submittingFollowUp (submittingFollowUp st) st' = st
        /\ meeting st' = meeting st
        /\ followUps st' = followUps st
        /\ (submittingFollowUp st = false -> st' = st))
  /\ (forall post q,
        AppendFollowUp q ∈ handleFollowUpSubmit st post -> post = Api.Ok q)
  /\ (forall post,
        let st' := run (handleFollowUpSubmit st post) st in
        followUps st' <> followUps st ->
        exists q, post = Api.Ok q /\ followUps st' = (followUps st ++ [q])%list).
Proof.
  split; [reflexivity |]. split; [| split; [| split; [| split]]].
  - intros version confirmed detail. destruct st, confirmed; cbn.
    + repeat split; trivial. now intros ->.
    + repeat split; trivial.
  - intros detail Hq. unfold handleFollowUpSubmit.
    destruct (Js.trim (followUpQuestion st)); [congruence | reflexivity].
  - intros detail. unfold handleFollowUpSubmit.
    destruct (Js.truthy_string (Js.trim (followUpQuestion st))); destruct st; cbn.
    + repeat split; trivial. now intros ->.
    + repeat split; trivial.
  - intros post q. unfold handleFollowUpSubmit.
    destruct (Js.truthy_string (Js.trim (followUpQuestion st))); cbn.
    + destruct post as [data|detail]; cbn; intros Hin;
        repeat (apply elem_of_cons in Hin; destruct Hin as [Hin | Hin];
                [try discriminate Hin |]);
        try (now apply elem_of_nil in Hin).
      now injection Hin as <-.
    + intros Hin. now apply elem_of_nil in Hin.
  - intros post. unfold handleFollowUpSubmit.
    destruct (Js.truthy_string (Js.trim (followUpQuestion st)));
      destruct post as [q|detail]; destruct st; cbn; try congruence.
    intros _. exists q. split; reflexivity.
Qed.

(** A rejected restore of version 1 while version 1 is previewed. *)
Lemma failed_attempt_keeps_meeting_state_witness :
  let st := Examples.previewing
              (Examples.meeting_3 completed [Examples.version_1 (Some [])])
              (Examples.version_1 (Some [])) in
  run (handleRestoreVersion 1 true (Api.Rejected (Some "Version not found"))) st
  = st.
Proof.
  intros st.
  apply (proj1 (proj2 (failed_attempt_keeps_meeting_state st)) 1 true
           (Some "Version not found")).
  reflexivity.
Defined.

End FailedAttempts.

Section Offered.

Import MeetingDetail.

Lemma Status_eqb_eq a b : Status_eqb a b = true <-> a = b.
Proof. destruct a, b; cbn; split; congruence. Qed.

(** The two buttons: [Regenerate] is rendered only for an admin on a
    [completed] meeting, [Ask Follow-up] only on a [completed] meeting
    with no historical version selected; on a meeting that is
    [in_progress] neither button is rendered. *)
Lemma actions_offered_only_when_completed
    (user : option User.t) (st : State) :
  (regenerateOffered user st = true ->
     exists m, meeting st = Some m /\ Meeting.status m = completed
               /\ user_is_admin user = true)
  /\ (askFollowUpOffered st = true ->
       exists m, meeting st = Some m /\ Meeting.status m = completed
                 /\ selectedVersion st = None)
  /\ (forall m, meeting st = Some m -> Meeting.status m = in_progress ->
       regenerateOffered user st = false /\ askFollowUpOffered st = false).
Proof.
  unfold regenerateOffered, askFollowUpOffered, page.
  split; [| split].
  - destruct (loading st); [discriminate |].
    destruct (meeting st) as [m|]; [| discriminate].
    intros [Ha Hs]%andb_true_iff. apply Status_eqb_eq in Hs. eauto.
  - destruct (loading st); [discriminate |].
    destruct (meeting st) as [m|]; [| discriminate].
    intros [Hs Hv]%andb_true_iff. apply Status_eqb_eq in Hs.
    exists m. repeat split; trivial.
    destruct (selectedVersion st); [| reflexivity].
    rewrite bool_decide_eq_true_2 in Hv by eauto. discriminate.
  - intros m Hm Hs. rewrite Hm. destruct (loading st); [auto |].
    rewrite Hs. cbn. now rewrite andb_false_r.
Qed.

(** An admin looking at a meeting that is being regenerated. *)
Lemma actions_offered_only_when_completed_witness :
  regenerateOffered (Some Examples.admin)
    (Examples.loaded (Examples.meeting_3 in_progress [])) = false
  /\ askFollowUpOffered
       (Examples.loaded (Examples.meeting_3 in_progress [])) = false.
Proof.
  apply (proj2 (proj2 (actions_offered_only_when_completed
                         (Some Examples.admin)
                         (Examples.loaded (Examples.meeting_3 in_progress []))))
           (Examples.meeting_3 in_progress []));
    reflexivity.
Defined.

(** C7.  Asking a follow-up stays available on a meeting that is
    [in_progress].  An admin loads a completed meeting, opens the
    follow-up form with the [Ask Follow-up] button and types a question,
    then starts a regeneration with the [Regenerate] button; the first
    tick of the timer brings the meeting with the status [in_progress].
    Both buttons are gone then, but the form, whose condition
    [showFollowUp && !selectedVersion] does not read the status, is still
    rendered, and submitting it posts the question. *)
Theorem follow_up_form_open_while_in_progress :
  let user := Some Examples.admin in
  let loaded := Examples.loaded (Examples.meeting_3 completed []) in
  let opened := after user Examples.form_opened in
  let clicked := after user (Examples.form_opened ++ [RegenerateClicked true]) in
  let st := after user Examples.form_open_while_regenerating in
  (* every click of the sequence was on a control that was rendered,
     and the tick came from a running timer *)
  askFollowUpOffered loaded = true
  /\ followUpFormShown opened = true
  /\ regenerateOffered user opened = true
  /\ handler user clicked PollFired = [Send GetMeeting]
  (* the page afterwards *)
  /\ Meeting.status <$> meeting st = Some in_progress
  /\ regenerateOffered user st = false
  /\ askFollowUpOffered st = false
  /\ followUpFormShown st = true
  /\ handler user st FollowUpSubmitted
     = [SetSubmittingFollowUp true; Send (PostFollowUp "And then?")]
  /\ (forall post,
        Send (PostFollowUp "And then?") ∈ handleFollowUpSubmit st post).
Proof.
  cbv zeta. do 9 (split; [reflexivity |]).
  intros post. destruct post; vm_compute;
    apply list_elem_of_further, list_elem_of_here.
Qed.

End Offered.

Section Display.

Import MeetingDetail.

Lemma or_string_truthy (s fallback : string) :
  s <> "" -> Js.or_string (Some s) fallback = s.
Proof. destruct s; [congruence | reflexivity]. Qed.

(** C8.  With a historical version selected whose summary and
    recommendation are non-empty, the summary and the recommendation on
    display are those of that version, and the chair card, when it is
    rendered, shows exactly them. *)
Theorem displayChair_of_selected_version
    (st : State) (v : OpinionVersion.t) :
  selectedVersion st = Some v ->
  OpinionVersion.chair_summary v <> "" ->
  OpinionVersion.chair_recommendation v <> "" ->
  displayChairSummary st = OpinionVersion.chair_summary v
  /\ displayChairRecommendation st = OpinionVersion.chair_recommendation v
  /\ (forall card, chairCard st = Some card ->
        card = (OpinionVersion.chair_summary v,
                OpinionVersion.chair_recommendation v)).
Proof.
  intros Hv Hs Hr.
  assert (H1 : displayChairSummary st = OpinionVersion.chair_summary v).
  { unfold displayChairSummary. rewrite Hv. cbn. now apply or_string_truthy. }
  assert (H2 : displayChairRecommendation st
               = OpinionVersion.chair_recommendation v).
  { unfold displayChairRecommendation. rewrite Hv. cbn.
    now apply or_string_truthy. }
  split; [assumption |]. split; [assumption |].
  intros card. unfold chairCard. rewrite H1, H2.
  destruct (page st) as [| |m]; try discriminate.
  destruct (Status_eqb _ _); [| discriminate]. now intros [= <-].
Qed.

(** Version 1 previewed on a meeting that is on version 3. *)
Lemma displayChair_of_selected_version_witness :
  displayChairSummary
    (Examples.previewing
       (Examples.meeting_3 completed [Examples.version_1 (Some [])])
       (Examples.version_1 (Some [])))
  = "First summary"
  /\ chairCard
       (Examples.previewing
          (Examples.meeting_3 completed [Examples.version_1 (Some [])])
          (Examples.version_1 (Some [])))
     = Some ("First summary", "First recommendation").
Proof.
  pose proof (displayChair_of_selected_version
                (Examples.previewing
                   (Examples.meeting_3 completed
                      [Examples.version_1 (Some [])])
                   (Examples.version_1 (Some [])))
                (Examples.version_1 (Some []))
                eq_refl
                ltac:(discriminate) ltac:(discriminate)) as (H1 & _ & _).
  split; [exact H1 | reflexivity].
Defined.

(** C3.  The opinion cards follow the stored array: the array on display
    is the [opinions] array of the selected version (of the meeting when
    none is selected), there are as many cards as opinions, the card at
    position [i] carries index [i] and the opinion at position [i], and
    the opinions read off the cards are the array itself, neither
    reordered nor filtered. *)
Theorem opinionCards_in_stored_order (st : State) :
  (forall v, selectedVersion st = Some v ->
     displayOpinions st = OpinionVersion.opinions v)
  /\ (forall m, selectedVersion st = None -> meeting st = Some m ->
        displayOpinions st = Meeting.opinions m)
  /\ length (opinionCards st) = length (displayOpinions st)
  /\ (forall i, opinionCards st !! i
                = opinionCard i <$> displayOpinions st !! i)
  /\ opinion <$> opinionCards st = displayOpinions st.
Proof.
  unfold opinionCards, displayOpinions.
  split; [| split; [| split; [| split]]].
  - now intros v ->.
  - now intros m -> ->.
  - apply length_imap.
  - intros i. apply list_lookup_imap.
  - rewrite fmap_imap.
    rewrite (imap_ext _ (const (fun x => x))) by reflexivity.
    rewrite imap_const. apply list_fmap_id.
Qed.

(** The cards of version 1: the less confident opinion of the agent hired
    first comes first. *)
Lemma opinionCards_in_stored_order_witness :
  displayOpinions
    (Examples.previewing
       (Examples.meeting_3 completed [Examples.version_1 (Some [])])
       (Examples.version_1 (Some [])))
  = [Examples.cfo; Examples.cto].
Proof.
  apply (proj1 (opinionCards_in_stored_order
                  (Examples.previewing
                     (Examples.meeting_3 completed
                        [Examples.version_1 (Some [])])
                     (Examples.version_1 (Some []))))
           (Examples.version_1 (Some []))).
  reflexivity.
Defined.




End Display.


Section DebugLogs.

Import MeetingDetail.

Lemma debugLogRows_eval st m r (σ : gmap nat (list DebugLog.t)) logs :
  meeting st = Some m -> Meeting.debug_logs m = Some r -> σ !! r = Some logs ->
  debugLogRows st σ
  = (imap (logRow st) (reverse logs), <[fresh (dom σ) := reverse logs]> σ).
Proof.
  intros Hm Hr Hl.
  unfold debugLogRows, debugLogs, ArrayStore.bind. rewrite Hm. cbn. rewrite Hr.
  unfold ArrayStore.ret, ArrayStore.spread, ArrayStore.alloc,
    ArrayStore.reverse_in_place, ArrayStore.elements,
    ArrayStore.content.
  rewrite Hl. cbn. rewrite alter_insert_eq.
  now rewrite lookup_insert_eq.
Qed.

Lemma fresh_not_allocated (σ : gmap nat (list DebugLog.t)) r l :
  σ !! r = Some l -> fresh (dom σ) <> r.
Proof.
  intros Hl Heq. apply (is_fresh (dom σ)). rewrite Heq.
  apply elem_of_dom. eauto.
Qed.

Lemma debugPanel_eval user st m r (σ : gmap nat (list DebugLog.t)) logs :
  meeting st = Some m -> Meeting.debug_logs m = Some r -> σ !! r = Some logs ->
  debugPanel user st σ
  = if negb (loading st) && user_is_admin user
       && (0 <? Js.array_length logs) && showDebugLogs st
    then (Some (imap (logRow st) (reverse logs)),
          <[fresh (dom σ) := reverse logs]> σ)
    else (None, σ).
Proof.
  intros Hm Hr Hl.
  pose proof (debugLogRows_eval st m r σ logs Hm Hr Hl) as Hrows.
  unfold debugPanel, page. rewrite Hm.
  destruct (loading st); [reflexivity |]. cbv beta iota.
  unfold ArrayStore.bind, debugLogs, ArrayStore.ret, ArrayStore.elements,
    ArrayStore.content.
  rewrite Hm. cbn [mbind option_bind]. rewrite Hr, Hl.
  change (default [] (Some logs)) with logs. cbn [negb andb].
  destruct (user_is_admin user && (0 <? Js.array_length logs)
            && showDebugLogs st); [| reflexivity].
  now rewrite Hrows.
Qed.

(** C6.  The debug-log rows are the entries of [meeting.debug_logs] in
    reverse, newest first: the entry at position [i] of the stored array
    is shown at position [length - 1 - i], and these are the rows of the
    panel whenever it shows any.  The reversal works on a copy: after
    rendering, the stored array, like every array that was in the store,
    holds what it held before, in the same order. *)
Theorem debugLogRows_newest_first
    (st : State) (m : Meeting.t) (r : aref)
    (σ : gmap nat (list DebugLog.t)) (logs : list DebugLog.t) :
  meeting st = Some m ->
  Meeting.debug_logs m = Some r ->
  σ !! r = Some logs ->
  let rows := (debugLogRows st σ).1 in
  let σ' := (debugLogRows st σ).2 in
  row_log <$> rows = reverse logs
  /\ (forall i log, logs !! i = Some log ->
        row_log <$> rows !! (length logs - 1 - i)%nat = Some log)
  /\ σ' !! r = Some logs
  /\ (forall r' l, σ !! r' = Some l -> σ' !! r' = Some l)
  /\ (forall user,
        (forall shown, (debugPanel user st σ).1 = Some shown -> shown = rows)
        /\ (forall r' l, σ !! r' = Some l ->
              (debugPanel user st σ).2 !! r' = Some l)).
Proof.
  intros Hm Hr Hl. cbv zeta.
  rewrite (debugLogRows_eval st m r σ logs) by assumption.
  cbn [fst snd].
  assert (Hrows : row_log <$> imap (logRow st) (reverse logs) = reverse logs).
  { rewrite fmap_imap.
    rewrite (imap_ext _ (const (fun x => x))) by reflexivity.
    rewrite imap_const. apply list_fmap_id. }
  assert (Hkeep : forall r' l, σ !! r' = Some l ->
            <[fresh (dom σ) := reverse logs]> σ !! r' = Some l).
  { intros r' l Hl'. rewrite lookup_insert_ne; [assumption |].
    now apply fresh_not_allocated with l. }
  split; [exact Hrows |].
  split; [| split; [now apply Hkeep | split; [exact Hkeep |]]].
  - intros i log Hi.
    rewrite <- list_lookup_fmap, Hrows.
    pose proof (lookup_lt_Some _ _ _ Hi) as Hlt.
    rewrite reverse_lookup by lia.
    replace (length logs - S (length logs - 1 - i))%nat with i by lia.
    exact Hi.
  - intros user. rewrite (debugPanel_eval user st m r σ logs) by assumption.
    destruct (_ && _); cbn [fst snd]; split.
    + now intros shown [= <-].
    + exact Hkeep.
    + discriminate.
    + auto.
Qed.

(** Two entries: the error logged last is the first row, and the stored
    array is still oldest-first. *)
Lemma debugLogRows_newest_first_witness :
  row_log
    <$> (debugLogRows
           (Examples.loaded (Examples.meeting_3 completed []))
           Examples.two_logs).1
  = [Examples.sample_log "error" "timeout";
     Examples.sample_log "info" "started"].
Proof.
  apply (proj1 (debugLogRows_newest_first
                  (Examples.loaded (Examples.meeting_3 completed []))
                  (Examples.meeting_3 completed [])
                  0%nat Examples.two_logs
                  [Examples.sample_log "info" "started";
                   Examples.sample_log "error" "timeout"]
                  eq_refl eq_refl eq_refl)).
Defined.

End DebugLogs.

Section Versions.

Import MeetingDetail.

Lemma create_counts outcome m :
  VersionManager.create outcome = inr m -> VersionManager.counts_versions m.
Proof.
  unfold VersionManager.create.
  destruct (VersionManager.succeeded outcome); [| discriminate].
  intros [= <-]. reflexivity.
Qed.

Lemma regenerate_counts now by_user outcome carried m m' :
  VersionManager.counts_versions m ->
  VersionManager.regenerate now by_user outcome carried m = inr m' ->
  VersionManager.counts_versions m'.
Proof.
  unfold VersionManager.regenerate, VersionManager.counts_versions,
    Js.array_length.
  intros Hm. destruct (VersionManager.status m); [discriminate |].
  destruct (VersionManager.succeeded outcome); [| discriminate].
  intros [= <-]. cbn. rewrite length_app. cbn. lia.
Qed.

Lemma restore_counts now by_user v m m' :
  VersionManager.counts_versions m ->
  VersionManager.restore now by_user v m = inr m' ->
  VersionManager.counts_versions m'.
Proof.
  unfold VersionManager.restore, VersionManager.counts_versions,
    Js.array_length.
  intros Hm. destruct (VersionManager.status m); [discriminate |].
  destruct (VersionManager.find_version _ _); [| discriminate].
  intros [= <-]. cbn. rewrite length_app. cbn. lia.
Qed.

Lemma follow_up_counts id now question chair m m' :
  VersionManager.counts_versions m ->
  VersionManager.follow_up id now question chair m = inr m' ->
  VersionManager.counts_versions m'.
Proof.
  unfold VersionManager.follow_up, VersionManager.counts_versions.
  intros Hm. destruct (VersionManager.status m); [discriminate |].
  destruct chair; [| discriminate].
  intros [= <-]. exact Hm.
Qed.

Lemma reachable_counts m :
  VersionManager.reachable m -> VersionManager.counts_versions m.
Proof.
  induction 1;
    eauto using create_counts, regenerate_counts, restore_counts,
      follow_up_counts.
Qed.

(** C1.  After every successful create, regenerate or restore (and
    follow-up), the stored [current_version] is the length of
    [opinion_history] plus one.  For a response that carries the stored
    version number and history, the numbers of versions the page
    computes, in the [History] label and in the regenerate prompt, are
    [opinion_history.length + 1], and equal [current_version]. *)
Theorem current_version_counts_history (m : VersionManager.StoredMeeting) :
  VersionManager.reachable m ->
  VersionManager.current_version m
  = Js.array_length (VersionManager.opinion_history m) + 1
  /\ (forall data, VersionManager.served m data ->
        historyLabel data
        = Js.array_length (VersionManager.opinion_history m) + 1
        /\ historyCount (Some data)
           = Js.array_length (VersionManager.opinion_history m) + 1
        /\ historyLabel data = VersionManager.current_version m
        /\ historyCount (Some data) = VersionManager.current_version m
        /\ savedAsVersion (Some data) = VersionManager.current_version m).
Proof.
  intros Hreach. pose proof (reachable_counts m Hreach) as Hc.
  unfold VersionManager.counts_versions in Hc. split; [exact Hc |].
  intros data [Hv Hh].
  assert (Hlabel : historyLabel data
            = Js.array_length (VersionManager.opinion_history m) + 1).
  { unfold historyLabel. rewrite Hh. cbn. unfold Js.truthy_number.
    destruct (Z.eqb_spec (Js.array_length (VersionManager.opinion_history m)) 0)
      as [->|]; reflexivity. }
  assert (Hcount : historyCount (Some data) = historyLabel data) by reflexivity.
  assert (Hsaved : savedAsVersion (Some data) = VersionManager.current_version m).
  { unfold savedAsVersion. cbn. rewrite Hv. cbn. unfold Js.truthy_number.
    destruct (Z.eqb_spec (VersionManager.current_version m) 0) as [H0|];
      [| reflexivity].
    unfold Js.array_length in Hc. lia. }
  rewrite Hcount, Hlabel. repeat split; congruence.
Qed.

(** The meeting of the samples: created, regenerated twice, one follow-up
    asked; the page counts three versions. *)
Lemma current_version_counts_history_witness :
  historyLabel
    (Examples.meeting_3 completed
       [Examples.version_1 (Some []); Examples.version_2])
  = 3
  /\ historyCount
       (Some (Examples.meeting_3 completed
                [Examples.version_1 (Some []); Examples.version_2]))
     = 3.
Proof.
  assert (R1 : VersionManager.reachable Examples.stored_1).
  { apply (VersionManager.reach_create
             (Some {| VersionManager.gen_opinions := [Examples.cfo; Examples.cto];
                      VersionManager.gen_summary := "First summary";
                      VersionManager.gen_recommendation :=
                        "First recommendation" |})).
    reflexivity. }
  assert (R2 : VersionManager.reachable Examples.stored_2).
  { apply (VersionManager.reach_regenerate
             "2025-01-01T10:00:00" (Some 1)
             (Some {| VersionManager.gen_opinions := [Examples.cto];
                      VersionManager.gen_summary := "Second summary";
                      VersionManager.gen_recommendation :=
                        "Second recommendation" |})
             [] Examples.stored_1); [exact R1 | reflexivity]. }
  assert (R3 : VersionManager.reachable (Examples.stored_3 [])).
  { apply (VersionManager.reach_regenerate
             "2025-01-02T10:00:00" (Some 1)
             (Some {| VersionManager.gen_opinions :=
                        [Examples.cto; Examples.cfo];
                      VersionManager.gen_summary := "Third summary";
                      VersionManager.gen_recommendation :=
                        "Third recommendation" |})
             [] Examples.stored_2); [exact R2 | reflexivity]. }
  assert (R4 : VersionManager.reachable
                 (Examples.stored_3 [Examples.asked_at_3])).
  { apply (VersionManager.reach_follow_up
             "f3" "2025-01-03T10:00:00" "And then?" (Some "Proceed.")
             (Examples.stored_3 [])); [exact R3 | reflexivity]. }
  destruct (proj2 (current_version_counts_history
                     (Examples.stored_3 [Examples.asked_at_3]) R4)
              (Examples.meeting_3 completed
                 [Examples.version_1 (Some []); Examples.version_2])
              (conj eq_refl eq_refl)) as (_ & _ & H1 & H2 & _).
  split; [exact H1 | exact H2].
Defined.

End Versions.

(* ===================================================================== *)
(** * Further properties of [MeetingDetail.tsx]                           *)
(* ===================================================================== *)

Section Regeneration.

Import MeetingDetail.

(** X1.  A confirmed [handleRegenerate] always ends with the
    [regenerating] flag lowered and no polling timer left, whether the
    request succeeds or fails and whether or not a timer was already
    running; when the prompt is declined the handler does nothing. *)
Theorem handleRegenerate_settles (st : State) (post : Api.Response Meeting.t) :
  regenerating (run (handleRegenerate true post) st) = false
  /\ pollingIntervalRef (run (handleRegenerate true post) st) = None
  /\ handleRegenerate false post = [].
Proof.
  destruct st as [? ? ? ? ? ? ? ? ? ? ? ? ? ? ? [ms|]], post; cbn; auto.
Qed.

(** X3.  [startPolling] never replaces a running timer: calling it twice
    is calling it once, and a timer that runs keeps the delay it was
    started with even when the configured interval has changed since.
    [stopPolling] leaves no timer and may be repeated. *)
Theorem startPolling_keeps_running_timer (st : State) :
  startPolling (startPolling st) = startPolling st
  /\ stopPolling (stopPolling st) = stopPolling st
  /\ pollingIntervalRef (stopPolling (startPolling st)) = None
  /\ (pollingIntervalRef st = None ->
      pollingIntervalRef (startPolling st) = Some (pollingIntervalMs st))
  /\ (forall ms ms',
        pollingIntervalRef st = Some ms ->
        pollingIntervalRef (startPolling (set_pollingIntervalMs ms' st))
        = Some ms).
Proof.
  destruct st as [? ? ? ? ? ? ? ? ? ? ? ? ? ? ? [ms|]]; cbn;
    repeat split; trivial; try discriminate.
Qed.

(** A timer started at 2000 ms keeps that delay when the settings bring
    an interval of 5000 ms. *)
Lemma startPolling_keeps_running_timer_witness :
  pollingIntervalRef
    (startPolling (set_pollingIntervalMs 5000 Examples.regenerating_page))
  = Some 2000.
Proof.
  apply (proj2 (proj2 (proj2 (proj2
           (startPolling_keeps_running_timer Examples.regenerating_page))))
           2000 5000).
  reflexivity.
Defined.

(** X4.  A polling tick ends the regeneration exactly when the meeting it
    fetched is [completed]: then the timer is cleared and [regenerating]
    lowered; on an [in_progress] meeting both stay as they are, and a
    failed fetch changes nothing at all.  No tick touches the selected
    version or the loading flag. *)
Theorem pollTick_stops_on_completed (st : State) :
  (forall data, Meeting.status data = completed ->
     let st' := run (pollTick (Api.Ok data)) st in
     pollingIntervalRef st' = None /\ regenerating st' = false
     /\ meeting st' = Some data)
  /\ (forall data, Meeting.status data = in_progress ->
        let st' := run (pollTick (Api.Ok data)) st in
        pollingIntervalRef st' = pollingIntervalRef st
        /\ regenerating st' = regenerating st
        /\ meeting st' = Some data)
  /\ (forall detail, run (pollTick (Api.Rejected detail)) st = st)
  /\ (forall get,
        selectedVersion (run (pollTick get) st) = selectedVersion st
        /\ loading (run (pollTick get) st) = loading st).
Proof.
  split; [| split; [| split]].
  - intros data Hs. unfold pollTick. rewrite Hs.
    destruct st as [? ? ? ? ? ? ? ? ? ? ? ? ? ? ? [ms|]]; cbn; auto.
  - intros data Hs. unfold pollTick. rewrite Hs.
    destruct st; cbn; auto.
  - intros detail. destruct st; reflexivity.
  - intros [data|detail]; unfold pollTick.
    + destruct (Meeting.status data);
        destruct st as [? ? ? ? ? ? ? ? ? ? ? ? ? ? ? [ms|]]; cbn; auto.
    + destruct st; cbn; auto.
Qed.

(** A tick that finds the meeting completed, on a page that regenerates. *)
Lemma pollTick_stops_on_completed_witness :
  pollingIntervalRef
    (run (pollTick (Api.Ok (Examples.meeting_3 completed [])))
         Examples.regenerating_page)
  = None.
Proof.
  apply (proj1 (pollTick_stops_on_completed Examples.regenerating_page)
           (Examples.meeting_3 completed [])).
  reflexivity.
Defined.

Lemma or_string_empty_fallback (s : string) : Js.or_string (Some s) "" = s.
Proof. destruct s; reflexivity. Qed.

(** X6.  After a successful load or restore the page shows the response
    and only the response: the meeting is the response, no historical
    version stays selected, and the opinions, the chair's summary and
    recommendation and the follow-ups on display are those of the
    response; for a restore this holds in whatever state the answer finds
    the page.  The answer of a regeneration installs the response as the
    meeting and its follow-ups but leaves the selection alone (the
    handler cleared it before the request): the page shows the response
    when no version was selected in the meantime, and a version selected
    while the request was pending stays on display. *)
Theorem successful_response_is_displayed (st : State) (data : Meeting.t) :
  showsCurrent (run (fetchMeeting false (Api.Ok data)) st) data
  /\ (forall version,
        showsCurrent
          (run (handleRestoreVersion version true (Api.Ok data)) st) data)
  /\ (forall version,
        showsCurrent (run (restoreAfter version (Api.Ok data)) st) data)
  /\ (let st' := run (regenerateAfter (Api.Ok data)) st in
      meeting st' = Some data
      /\ followUps st' = Js.or_object (Meeting.follow_ups data) []
      /\ selectedVersion st' = selectedVersion st
      /\ (selectedVersion st = None -> showsCurrent st' data)
      /\ (forall v,
            selectedVersion st = Some v ->
            OpinionVersion.opinions v <> [] ->
            displayOpinions st' = OpinionVersion.opinions v)).
Proof.
  unfold showsCurrent, displayOpinions, displayChairSummary,
    displayChairRecommendation, displayFollowUps.
  split; [| split; [| split]]; [| intros version | intros version |].
  1-3: destruct st as [? ? ? ? ? ? ? ? ? ? sel ? ? ? ? [ms|]];
    cbn -[Js.or_string]; rewrite ?or_string_empty_fallback;
    repeat split; reflexivity.
  assert (Hst : forall st',
            meeting st' = Some data ->
            followUps st' = Js.or_object (Meeting.follow_ups data) [] ->
            selectedVersion st' = selectedVersion st ->
            meeting st' = Some data
            /\ followUps st' = Js.or_object (Meeting.follow_ups data) []
            /\ selectedVersion st' = selectedVersion st
            /\ (selectedVersion st = None ->
                meeting st' = Some data
                /\ selectedVersion st' = None
                /\ followUps st' = Js.or_object (Meeting.follow_ups data) []
                /\ Js.or_object (OpinionVersion.opinions <$> selectedVersion st')
                     (Js.or_object (Meeting.opinions <$> meeting st') [])
                   = Meeting.opinions data
                /\ Js.or_string
                     (OpinionVersion.chair_summary <$> selectedVersion st')
                     (Js.or_string (Meeting.chair_summary <$> meeting st') "")
                   = Meeting.chair_summary data
                /\ Js.or_string
                     (OpinionVersion.chair_recommendation <$> selectedVersion st')
                     (Js.or_string
                        (Meeting.chair_recommendation <$> meeting st') "")
                   = Meeting.chair_recommendation data
                /\ Js.or_object (selectedVersion st' ≫= OpinionVersion.follow_ups)
                     (followUps st')
                   = Js.or_object (Meeting.follow_ups data) [])
            /\ (forall v,
                  selectedVersion st = Some v ->
                  OpinionVersion.opinions v <> [] ->
                  Js.or_object (OpinionVersion.opinions <$> selectedVersion st')
                    (Js.or_object (Meeting.opinions <$> meeting st') [])
                  = OpinionVersion.opinions v)).
  { intros st' Hm Hf Hsel. rewrite Hm, Hf, Hsel.
    split; [reflexivity |]. split; [reflexivity |]. split; [reflexivity |].
    split.
    - intros ->. cbn -[Js.or_string]. rewrite ?or_string_empty_fallback.
      repeat split; reflexivity.
    - intros v -> Hv. cbn. destruct (OpinionVersion.opinions v);
        [congruence | reflexivity]. }
  apply Hst; destruct st as [? ? ? ? ? ? ? ? ? ? sel ? ? ? ? [ms|]];
    reflexivity.
Qed.

(** A regeneration is answered while version 1 is previewed: the
    opinions on display are still those of version 1. *)
Lemma successful_response_is_displayed_witness :
  displayOpinions
    (run (regenerateAfter (Api.Ok (Examples.meeting_3 completed [])))
       Examples.regenerating_page)
  = OpinionVersion.opinions (Examples.version_1 (Some [])).
Proof.
  apply (proj2 (proj2 (proj2 (proj2 (proj2 (proj2 (proj2
           (successful_response_is_displayed Examples.regenerating_page
              (Examples.meeting_3 completed []))))))))
           (Examples.version_1 (Some [])));
    [reflexivity | discriminate].
Defined.

(** The two parts of each handler that awaits make up the handler. *)
Lemma handlers_around_await :
  (forall get, pollTick get = Send GetMeeting :: pollAnswered get)
  /\ (forall post,
        handleRegenerate true post
        = (regenerateBefore ++ regenerateAfter post)%list)
  /\ (forall version post,
        handleRestoreVersion version true post
        = (restoreBefore version ++ restoreAfter version post)%list)
  /\ (forall st post,
        handleFollowUpSubmit st post
        = (followUpBefore st
           ++ (if Js.truthy_string (Js.trim (followUpQuestion st))
               then followUpAfter post else []))%list)
  /\ (forall delete,
        handleDelete true delete = Send DeleteMeeting :: deleteAfter delete)
  /\ (forall post,
        handleFileUpload true post = (uploadBefore ++ uploadAfter post)%list)
  /\ (forall fileId delete,
        handleRemoveFile fileId delete
        = Send (DeleteFile fileId) :: removeFileAfter fileId delete).
Proof.
  repeat split; try reflexivity.
  - intros [data|detail]; [| reflexivity].
    unfold pollTick, pollAnswered, fetchMeeting. cbn.
    now destruct (Status_eqb (Meeting.status data) completed).
  - intros st post. unfold handleFollowUpSubmit, followUpBefore.
    now destruct (Js.truthy_string (Js.trim (followUpQuestion st))).
Qed.

Lemma fetchSettings_timer user get st :
  pollingIntervalRef (run (fetchSettings user get) st) = pollingIntervalRef st
  /\ regenerating (run (fetchSettings user get) st) = regenerating st.
Proof.
  unfold fetchSettings.
  destruct (user_is_admin user); cbn; [| auto].
  destruct get as [[s|]|]; cbn; auto.
  destruct (Js.truthy_string s); cbn; auto.
  destruct (Js.parseInt s) as [n|]; cbn; auto.
  destruct (500 <=? n); cbn; auto.
Qed.

Lemma step_timer_while_regenerating user st e :
  timer_while_regenerating st -> timer_while_regenerating (step user st e).
Proof.
  unfold timer_while_regenerating, step.
  destruct e; cbn [handler].
  2:{ destruct (fetchSettings_timer user get st) as [-> ->]. auto. }
  all: unfold fetchMeeting, pollAnswered, regenerateBefore, regenerateAfter,
         restoreBefore, restoreAfter, followUpBefore, followUpAfter,
         deleteAfter, uploadBefore, uploadAfter, removeFileAfter,
         toggleLogExpanded.
  all: destruct st as [? ? ? ? ? ? ? ? ? ? ? ? ? ? ? [ms|]]; cbn.
  all: repeat match goal with
         | |- context [match ?x with _ => _ end] => destruct x; cbn
         end.
  all: intros H Hs; try (exact (H Hs)); try reflexivity;
    try (now destruct Hs); try (apply H; eauto).
Qed.

Lemma after_timer_while_regenerating user es :
  timer_while_regenerating (after user es).
Proof.
  induction es as [|e es IH] using rev_ind.
  - intros [ms Hms]. discriminate Hms.
  - unfold after. rewrite fold_left_app. cbn.
    now apply step_timer_while_regenerating.
Qed.

(** X20.  Polling never outlives the regeneration.  In every state the
    page reaches, through any interleaving of clicks, timer ticks and
    answers, a timer runs only while [regenerating] is raised, and it was
    created with a delay argument of at least 500.  The answer of the
    regeneration request, and the answer of a poll that finds the meeting
    completed, leave no timer and lower the flag, in whatever state they
    find the page. *)
Theorem polling_only_while_regenerating (user : option User.t) :
  (forall es ms,
     pollingIntervalRef (after user es) = Some ms ->
     regenerating (after user es) = true /\ 500 <= ms)
  /\ (forall st post,
        pollingIntervalRef (step user st (RegenerateAnswered post)) = None
        /\ regenerating (step user st (RegenerateAnswered post)) = false)
  /\ (forall st data,
        Meeting.status data = completed ->
        pollingIntervalRef (step user st (PollAnswered (Api.Ok data))) = None
        /\ regenerating (step user st (PollAnswered (Api.Ok data))) = false).
Proof.
  split; [| split].
  - intros es ms Href. split.
    + apply after_timer_while_regenerating. rewrite Href. eauto.
    + exact (proj2 (after_interval_ok user es) ms Href).
  - intros st post.
    destruct st as [? ? ? ? ? ? ? ? ? ? ? ? ? ? ? [ms|]], post; cbn; auto.
  - intros st data Hs. unfold step. cbn [handler]. unfold pollAnswered.
    rewrite Hs.
    destruct st as [? ? ? ? ? ? ? ? ? ? ? ? ? ? ? [ms|]]; cbn; auto.
Qed.

(** The timer of an admin who has just confirmed a regeneration. *)
Lemma polling_only_while_regenerating_witness :
  regenerating (after (Some Examples.admin) Examples.one_second_interval) = true
  /\ 500 <= 1000.
Proof.
  apply (proj1 (polling_only_while_regenerating (Some Examples.admin))
           Examples.one_second_interval 1000).
  reflexivity.
Defined.

End Regeneration.

Section Trim.

Lemma trimStart_first s : JsText.is_space (JsText.first_unit (Js.trimStart s)) = false.
Proof.
  induction s as [|c s IH]; [reflexivity |].
  cbn [Js.trimStart]. destruct (Js.isStrWhiteSpaceChar c) eqn:E; [exact IH |].
  exact E.
Qed.

Lemma trimStart_all_space s : Js.trimStart s = "" <-> JsText.all_space s = true.
Proof.
  induction s as [|c s IH]; [easy |].
  cbn [Js.trimStart JsText.all_space].
  destruct (Js.isStrWhiteSpaceChar c); cbn [andb]; [exact IH | easy].
Qed.

Lemma string_rev_onto_app s t acc :
  Js.string_rev_onto (s +:+ t) acc
  = Js.string_rev_onto t (Js.string_rev_onto s acc).
Proof.
  revert acc. induction s as [|c s IH]; intros acc; [reflexivity |].
  exact (IH (String c acc)).
Qed.

Lemma append_snoc_cons x c acc :
  (x +:+ String c "") +:+ acc = x +:+ String c acc.
Proof.
  induction x as [|d x IH]; [reflexivity |].
  change (String d ((x +:+ String c "") +:+ acc) = String d (x +:+ String c acc)).
  now f_equal.
Qed.

Lemma string_rev_onto_acc s acc :
  Js.string_rev_onto s acc = Js.string_rev s +:+ acc.
Proof.
  unfold Js.string_rev. revert acc.
  induction s as [|c s IH]; intros acc; cbn; [reflexivity |].
  rewrite (IH (String c acc)), (IH (String c "")).
  now rewrite append_snoc_cons.
Qed.

Lemma string_rev_snoc s c :
  Js.string_rev (s +:+ String c "") = String c (Js.string_rev s).
Proof. unfold Js.string_rev. now rewrite string_rev_onto_app. Qed.

Lemma string_rev_cons c s :
  Js.string_rev (String c s) = Js.string_rev s +:+ String c "".
Proof. unfold Js.string_rev at 1. cbn. apply string_rev_onto_acc. Qed.

Lemma string_rev_involutive s : Js.string_rev (Js.string_rev s) = s.
Proof.
  induction s as [|c s IH]; [reflexivity |].
  now rewrite string_rev_cons, string_rev_snoc, IH.
Qed.

Lemma trimStart_snoc x c :
  Js.isStrWhiteSpaceChar c = false ->
  Js.trimStart (x +:+ String c "") = Js.trimStart x +:+ String c "".
Proof.
  intros Hc. induction x as [|d x IH].
  - change (Js.trimStart (String c "") = String c "").
    cbn [Js.trimStart]. now rewrite Hc.
  - change (Js.trimStart (String d (x +:+ String c ""))
            = Js.trimStart (String d x) +:+ String c "").
    cbn [Js.trimStart].
    destruct (Js.isStrWhiteSpaceChar d); [exact IH | reflexivity].
Qed.

Lemma trimEnd_cons c s :
  Js.isStrWhiteSpaceChar c = false ->
  Js.trimEnd (String c s) = String c (Js.trimEnd s).
Proof.
  intros Hc. unfold Js.trimEnd.
  now rewrite string_rev_cons, trimStart_snoc, string_rev_snoc.
Qed.

Lemma trimEnd_last s : JsText.is_space (JsText.last_unit (Js.trimEnd s)) = false.
Proof.
  unfold JsText.last_unit, Js.trimEnd. rewrite string_rev_involutive.
  apply trimStart_first.
Qed.

Lemma trim_trimmed s : JsText.trimmed (Js.trim s).
Proof.
  split; [| apply trimEnd_last].
  unfold Js.trim. pose proof (trimStart_first s) as H.
  destruct (Js.trimStart s) as [|c r]; [reflexivity |].
  cbn in H. now rewrite trimEnd_cons.
Qed.

Lemma trim_empty s : Js.trim s = "" <-> JsText.all_space s = true.
Proof.
  rewrite <- trimStart_all_space. unfold Js.trim.
  pose proof (trimStart_first s) as H.
  destruct (Js.trimStart s) as [|c r]; [easy |].
  cbn in H. rewrite trimEnd_cons by assumption. easy.
Qed.

End Trim.

Section FollowUps.

Import MeetingDetail.

(** X7.  [handleFollowUpSubmit] sends nothing for a question that holds
    only white space.  After a submit that succeeded the text box is
    empty, the form closed and the answer last in the list, so that
    submitting again at once does nothing. *)
Theorem handleFollowUpSubmit_blank_and_repeat (st : State) :
  (forall post,
     JsText.all_space (followUpQuestion st) = true ->
     handleFollowUpSubmit st post = [])
  /\ (forall q,
        JsText.all_space (followUpQuestion st) = false ->
        let st' := run (handleFollowUpSubmit st (Api.Ok q)) st in
        followUps st' = (followUps st ++ [q])%list
        /\ followUpQuestion st' = ""
        /\ showFollowUp st' = false
        /\ submittingFollowUp st' = false)
  /\ (forall q post,
        handleFollowUpSubmit
          (run (handleFollowUpSubmit st (Api.Ok q)) st) post = []).
Proof.
  assert (Hblank : forall st0, Js.trim (followUpQuestion st0) = "" ->
            forall post, handleFollowUpSubmit st0 post = []).
  { intros st0 H post. unfold handleFollowUpSubmit. now rewrite H. }
  split; [| split].
  - intros post H. apply Hblank. now apply trim_empty.
  - intros q H. unfold handleFollowUpSubmit.
    destruct (Js.trim (followUpQuestion st)) eqn:E.
    + apply trim_empty in E. congruence.
    + destruct st; cbn. auto.
  - intros q post. apply Hblank. unfold handleFollowUpSubmit.
    destruct (Js.trim (followUpQuestion st)) eqn:E; cbn.
    + exact E.
    + destruct st; reflexivity.
Qed.

(** A question made of three spaces. *)
Lemma handleFollowUpSubmit_blank_and_repeat_witness :
  handleFollowUpSubmit
    (set_followUpQuestion "   " initial)
    (Api.Rejected None)
  = [].
Proof.
  apply (proj1 (handleFollowUpSubmit_blank_and_repeat
                  (set_followUpQuestion "   " initial))).
  reflexivity.
Defined.

(** X8.  The question that [handleFollowUpSubmit] posts is the text of
    the box with the white space at both ends removed: it is never empty
    and neither starts nor ends with white space. *)
Theorem handleFollowUpSubmit_posts_trimmed
    (st : State) (post : Api.Response FollowUpQuestion.t) (q : string) :
  Send (PostFollowUp q) ∈ handleFollowUpSubmit st post ->
  q = Js.trim (followUpQuestion st) /\ q <> "" /\ JsText.trimmed q.
Proof.
  unfold handleFollowUpSubmit.
  destruct (Js.trim (followUpQuestion st)) as [|c r] eqn:E; cbn.
  - intros H. now apply elem_of_nil in H.
  - intros H.
    assert (Hq : q = String c r).
    { destruct post; cbn in H;
        repeat (apply elem_of_cons in H; destruct H as [H | H];
                [try discriminate H |]);
        try (now apply elem_of_nil in H);
        now injection H. }
    subst q. split; [reflexivity |]. split; [discriminate |].
    rewrite <- E. apply trim_trimmed.
Qed.

(** The box holds a question with spaces around it. *)
Lemma handleFollowUpSubmit_posts_trimmed_witness :
  "Why now?" = Js.trim " Why now?  "
  /\ "Why now?" <> "" /\ JsText.trimmed "Why now?".
Proof.
  apply (handleFollowUpSubmit_posts_trimmed
           (set_followUpQuestion " Why now?  " initial)
           (Api.Rejected None) "Why now?").
  apply list_elem_of_further, list_elem_of_here.
Defined.

End FollowUps.

Section AttachedFiles.

Import MeetingDetail.

Lemma elem_of_filter_bool {A} (p : A -> bool) (l : list A) (x : A) :
  x ∈ List.filter p l <-> x ∈ l /\ p x = true.
Proof. rewrite !list_elem_of_In. apply filter_In. Qed.

Lemma filter_bool_sublist {A} (p : A -> bool) (l : list A) :
  sublist (List.filter p l) l.
Proof.
  induction l as [|x l IH]; cbn; [constructor |].
  destruct (p x); now constructor.
Qed.

Lemma filter_bool_all {A} (p : A -> bool) (l : list A) :
  (forall x, x ∈ l -> p x = true) -> List.filter p l = l.
Proof.
  induction l as [|x l IH]; intros H; cbn; [reflexivity |].
  rewrite (H x) by apply list_elem_of_here.
  f_equal. apply IH. intros y Hy. apply H. now apply list_elem_of_further.
Qed.

Lemma filter_bool_app {A} (p : A -> bool) (l1 l2 : list A) :
  List.filter p (l1 ++ l2) = (List.filter p l1 ++ List.filter p l2)%list.
Proof. apply List.filter_app. Qed.

Lemma meetingFiles_remove st fileId delete :
  meetingFiles (run (handleRemoveFile fileId delete) st)
  = match delete with
    | Api.Ok _ =>
        List.filter (fun f => negb (String.eqb (MeetingFile.id f) fileId))
          (meetingFiles st)
    | Api.Rejected _ => meetingFiles st
    end.
Proof. destruct st, delete; reflexivity. Qed.

(** X9.  A successful [handleRemoveFile] takes every file with the given
    id off the list and nothing else: the other files stay, in their
    order; removing an id that no file has, or removing the same id a
    second time, leaves the list as it is.  A failed removal changes
    nothing. *)
Theorem handleRemoveFile_removes_exactly (st : State) (fileId : string) :
  let st' := run (handleRemoveFile fileId (Api.Ok tt)) st in
  (forall f, f ∈ meetingFiles st'
             <-> f ∈ meetingFiles st /\ MeetingFile.id f <> fileId)
  /\ sublist (meetingFiles st') (meetingFiles st)
  /\ meetingFiles (run (handleRemoveFile fileId (Api.Ok tt)) st')
     = meetingFiles st'
  /\ ((forall f, f ∈ meetingFiles st -> MeetingFile.id f <> fileId) ->
      meetingFiles st' = meetingFiles st)
  /\ (forall detail, run (handleRemoveFile fileId (Api.Rejected detail)) st = st).
Proof.
  cbv zeta. rewrite !meetingFiles_remove.
  split; [| split; [| split; [| split]]].
  - intros f. rewrite elem_of_filter_bool, negb_true_iff, String.eqb_neq.
    reflexivity.
  - apply filter_bool_sublist.
  - apply filter_bool_all. intros f Hf.
    now apply elem_of_filter_bool in Hf.
  - intros H. apply filter_bool_all. intros f Hf.
    apply negb_true_iff, String.eqb_neq. now apply H.
  - intros detail. destruct st; reflexivity.
Qed.

(** Removing a file that is not attached. *)
Lemma handleRemoveFile_removes_exactly_witness :
  meetingFiles (run (handleRemoveFile "c" (Api.Ok tt)) Examples.with_files)
  = meetingFiles Examples.with_files.
Proof.
  apply (proj1 (proj2 (proj2 (proj2
           (handleRemoveFile_removes_exactly Examples.with_files "c"))))).
  intros f Hf.
  apply elem_of_cons in Hf. destruct Hf as [-> | Hf]; [discriminate |].
  apply elem_of_cons in Hf. destruct Hf as [-> | Hf]; [discriminate |].
  now apply elem_of_nil in Hf.
Defined.

(** X10.  [handleFileUpload] does nothing when no file was chosen.  With
    a file, it ends with the [uploadingFile] flag lowered; a successful
    upload puts the new file last on the list, a failed one leaves the
    list as it is.  Removing the file just uploaded gives back the former
    list, provided no file on it had the same id. *)
Theorem handleFileUpload_appends (st : State) :
  (forall post, handleFileUpload false post = [])
  /\ (forall post, uploadingFile (run (handleFileUpload true post) st) = false)
  /\ (forall data,
        meetingFiles (run (handleFileUpload true (Api.Ok data)) st)
        = (meetingFiles st ++ [data])%list)
  /\ (forall detail,
        meetingFiles (run (handleFileUpload true (Api.Rejected detail)) st)
        = meetingFiles st)
  /\ (forall data,
        (forall f, f ∈ meetingFiles st ->
                   MeetingFile.id f <> MeetingFile.id data) ->
        meetingFiles
          (run (handleRemoveFile (MeetingFile.id data) (Api.Ok tt))
               (run (handleFileUpload true (Api.Ok data)) st))
        = meetingFiles st).
Proof.
  split; [reflexivity |]. split; [| split; [| split]].
  - intros post. destruct st, post; reflexivity.
  - intros data. destruct st; reflexivity.
  - intros detail. destruct st; reflexivity.
  - intros data Hfresh. rewrite meetingFiles_remove.
    replace (meetingFiles (run (handleFileUpload true (Api.Ok data)) st))
      with (meetingFiles st ++ [data])%list by (destruct st; reflexivity).
    rewrite filter_bool_app. cbn. rewrite String.eqb_refl. cbn.
    rewrite app_nil_r. apply filter_bool_all. intros f Hf.
    apply negb_true_iff, String.eqb_neq. now apply Hfresh.
Qed.

(** Uploading a third file and removing it again. *)
Lemma handleFileUpload_appends_witness :
  meetingFiles
    (run (handleRemoveFile "c" (Api.Ok tt))
         (run (handleFileUpload true (Api.Ok (Examples.sample_file "c")))
              Examples.with_files))
  = meetingFiles Examples.with_files.
Proof.
  apply (proj2 (proj2 (proj2 (proj2
           (handleFileUpload_appends Examples.with_files))))
           (Examples.sample_file "c")).
  intros f Hf.
  apply elem_of_cons in Hf. destruct Hf as [-> | Hf]; [discriminate |].
  apply elem_of_cons in Hf. destruct Hf as [-> | Hf]; [discriminate |].
  now apply elem_of_nil in Hf.
Defined.

End AttachedFiles.

Section HistoryMenu.

Import MeetingDetail.

Lemma filter_viewing_historical st l :
  length (List.filter entry_viewing (historicalEntry st <$> l))
  = length (List.filter (isViewing st) l).
Proof.
  induction l as [|v l IH]; [reflexivity |].
  cbn. destruct (isViewing st v); cbn; now rewrite IH.
Qed.

Lemma filter_none {A} (p : A -> bool) (l : list A) :
  (forall x, x ∈ l -> p x = false) -> List.filter p l = [].
Proof.
  induction l as [|x l IH]; intros H; cbn; [reflexivity |].
  rewrite (H x) by apply list_elem_of_here.
  apply IH. intros y Hy. apply H. now apply list_elem_of_further.
Qed.

(** In a list whose version numbers are all different, exactly one entry
    has the version number of a given member. *)
Lemma one_version_match (sv : OpinionVersion.t) (l : list OpinionVersion.t) :
  NoDup (OpinionVersion.version <$> l) -> sv ∈ l ->
  length (List.filter
            (fun v => OpinionVersion.version sv =? OpinionVersion.version v) l)
  = 1%nat.
Proof.
  induction l as [|v l IH]; intros Hnd Hin.
  - now apply elem_of_nil in Hin.
  - rewrite fmap_cons in Hnd. apply NoDup_cons in Hnd as [Hv Hnd].
    cbn. apply elem_of_cons in Hin. destruct Hin as [-> | Hin].
    + rewrite Z.eqb_refl. cbn. f_equal.
      rewrite filter_none; [reflexivity |].
      intros x Hx. apply Z.eqb_neq. intros Heq. apply Hv. rewrite Heq.
      apply list_elem_of_fmap. eauto.
    + destruct (Z.eqb_spec (OpinionVersion.version sv) (OpinionVersion.version v))
        as [Heq | Hne].
      * exfalso. apply Hv. rewrite <- Heq. apply list_elem_of_fmap. eauto.
      * now apply IH.
Qed.

(** X11.  The open history menu lists the current version first and then
    the archived versions newest first.  When the archived version
    numbers are all different and the selected version, if any, is one of
    the archived ones, exactly one line carries the [Viewing] badge; a
    [Restore This Version] button is only on an archived line that is
    being viewed, and it restores the same version as the button of the
    preview notice. *)
Theorem historyMenu_marks_one_line
    (user : option User.t) (st : State) (m : Meeting.t)
    (history : list OpinionVersion.t) (lines : list HistoryEntry) :
  meeting st = Some m ->
  Meeting.opinion_history m = Some history ->
  historyMenu user st = Some lines ->
  NoDup (OpinionVersion.version <$> history) ->
  (forall selected, selectedVersion st = Some selected -> selected ∈ history) ->
  entry_version <$> lines
  = Meeting.current_version m
    :: (Some <$> reverse (OpinionVersion.version <$> history))
  /\ length (List.filter entry_viewing lines) = 1%nat
  /\ (forall line, line ∈ lines -> entry_restore line = true ->
        entry_current line = false
        /\ entry_viewing line = true
        /\ entry_version line = noticeRestores st).
Proof.
  intros Hm Hh Hmenu Hnd Hsel.
  unfold historyMenu, noticeRestores, page in *. rewrite Hm in *.
  destruct (loading st); [discriminate |].
  destruct (_ && _); [| discriminate].
  injection Hmenu as <-. rewrite Hh. cbn [Js.or_object].
  split; [| split].
  - rewrite fmap_cons. f_equal.
    rewrite <- fmap_reverse, <- !list_fmap_compose. reflexivity.
  - assert (Hcur : entry_viewing (currentEntry st m)
                   = negb (bool_decide (is_Some (selectedVersion st))))
      by reflexivity.
    cbn [List.filter]. rewrite Hcur.
    destruct (selectedVersion st) as [sv|] eqn:Hs.
    + rewrite bool_decide_eq_true_2 by eauto. cbn [negb].
      rewrite filter_viewing_historical. unfold isViewing. rewrite Hs.
      apply one_version_match.
      * rewrite fmap_reverse.
        now rewrite (reverse_Permutation (OpinionVersion.version <$> history)).
      * apply elem_of_reverse. now apply Hsel.
    + rewrite bool_decide_eq_false_2 by (intros [? [=]]). cbn [negb length].
      f_equal. rewrite filter_viewing_historical.
      rewrite filter_none; [reflexivity |].
      intros v _. unfold isViewing. now rewrite Hs.
  - intros line Hin Hr. apply elem_of_cons in Hin.
    destruct Hin as [-> | Hin]; [discriminate |].
    apply list_elem_of_fmap in Hin as (v & -> & Hv).
    cbn in *. split; [reflexivity |]. split; [assumption |].
    unfold isViewing in Hr. destruct (selectedVersion st) as [sv|];
      [| discriminate].
    apply Z.eqb_eq in Hr. cbn. now rewrite Hr.
Qed.

(** The menu of the sample meeting with version 1 selected: three lines,
    one of them marked. *)
Lemma historyMenu_marks_one_line_witness :
  exists lines,
    historyMenu (Some Examples.admin) Examples.menu_open = Some lines
    /\ entry_version <$> lines = [Some 3; Some 2; Some 1]
    /\ length (List.filter entry_viewing lines) = 1%nat.
Proof.
  eexists. split; [reflexivity |].
  destruct (historyMenu_marks_one_line
              (Some Examples.admin) Examples.menu_open
              (Examples.meeting_3 completed
                 [Examples.version_1 (Some []); Examples.version_2])
              [Examples.version_1 (Some []); Examples.version_2]
              _ eq_refl eq_refl eq_refl) as (H1 & H2 & _).
  - apply NoDup_cons. split.
    + intros H. apply list_elem_of_singleton in H. discriminate.
    + apply NoDup_singleton.
  - intros selected [= <-]. apply list_elem_of_here.
  - split; [exact H1 | exact H2].
Defined.

End HistoryMenu.

Section DebugSummary.

Import MeetingDetail.

Lemma existsb_level level logs :
  existsb (isLevel level) logs = true
  <-> exists log, log ∈ logs /\ DebugLog.level log = level.
Proof.
  rewrite existsb_exists. unfold isLevel.
  split; intros (log & Hin & Hl); exists log.
  - now rewrite list_elem_of_In, <- String.eqb_eq.
  - now rewrite <- list_elem_of_In, String.eqb_eq.
Qed.

Lemma levelCount_positive level logs :
  existsb (isLevel level) logs = true -> 1 <= levelCount level logs.
Proof.
  unfold levelCount, Js.array_length.
  induction logs as [|log logs IH]; cbn; [discriminate |].
  destruct (isLevel level log); cbn; [lia |]. exact IH.
Qed.

Lemma levelCount_disjoint logs :
  levelCount "error" logs + levelCount "warning" logs <= Js.array_length logs.
Proof.
  unfold levelCount, Js.array_length, isLevel.
  induction logs as [|log logs IH]; cbn; [lia |].
  destruct (String.eqb_spec (DebugLog.level log) "error") as [He|He].
  - rewrite He. cbn. lia.
  - destruct (String.eqb (DebugLog.level log) "warning"); cbn; lia.
Qed.

(** X12.  In the head of the debug-log panel a number of errors (of
    warnings) is shown only when it is at least one, and it is hidden
    exactly when no entry has that level; errors and warnings together
    never exceed the number of entries.  The card takes the red border as
    soon as one row is red, and keeps the neutral border only when every
    row is neutral. *)
Theorem debugSummary_consistent (logs : list DebugLog.t) :
  (forall n, summary_errors (debugSummary logs) = Some n ->
     1 <= n <= summary_entries (debugSummary logs))
  /\ (forall n, summary_warnings (debugSummary logs) = Some n ->
        1 <= n <= summary_entries (debugSummary logs))
  /\ (summary_errors (debugSummary logs) = None
      <-> forall log, log ∈ logs -> DebugLog.level log <> "error")
  /\ (summary_warnings (debugSummary logs) = None
      <-> forall log, log ∈ logs -> DebugLog.level log <> "warning")
  /\ levelCount "error" logs + levelCount "warning" logs
     <= summary_entries (debugSummary logs)
  /\ (forall log, log ∈ logs ->
        getLogBgColor (DebugLog.level log) = "bg-red-500/10 border-red-500/30" ->
        summary_border (debugSummary logs) = "border-red-500/30")
  /\ (summary_border (debugSummary logs) = "border-obsidian-700" ->
      forall log, log ∈ logs ->
        getLogBgColor (DebugLog.level log)
        = "bg-obsidian-800/30 border-obsidian-700/50").
Proof.
  pose proof (levelCount_disjoint logs) as Hsum.
  assert (Hnn : forall level, 0 <= levelCount level logs)
    by (intros; unfold levelCount, Js.array_length; lia).
  pose proof (Hnn "error") as He0. pose proof (Hnn "warning") as Hw0.
  unfold debugSummary, hasErrors, hasWarnings. cbn.
  split; [| split; [| split; [| split; [| split; [| split]]]]].
  - destruct (existsb (isLevel "error") logs) eqn:E; [| discriminate].
    intros n [= <-]. apply levelCount_positive in E. lia.
  - destruct (existsb (isLevel "warning") logs) eqn:E; [| discriminate].
    intros n [= <-]. apply levelCount_positive in E. lia.
  - destruct (existsb (isLevel "error") logs) eqn:E.
    + split; [discriminate |]. intros H.
      apply existsb_level in E as (log & Hin & Hl). now destruct (H log Hin).
    + split; [| reflexivity]. intros _ log Hin Hl.
      assert (existsb (isLevel "error") logs = true)
        by (apply existsb_level; eauto).
      congruence.
  - destruct (existsb (isLevel "warning") logs) eqn:E.
    + split; [discriminate |]. intros H.
      apply existsb_level in E as (log & Hin & Hl). now destruct (H log Hin).
    + split; [| reflexivity]. intros _ log Hin Hl.
      assert (existsb (isLevel "warning") logs = true)
        by (apply existsb_level; eauto).
      congruence.
  - exact Hsum.
  - intros log Hin Hred.
    assert (Hl : DebugLog.level log = "error").
    { unfold getLogBgColor in Hred.
      destruct (String.eqb_spec (DebugLog.level log) "error"); [assumption |].
      destruct (String.eqb (DebugLog.level log) "warning"); discriminate. }
    assert (E : existsb (isLevel "error") logs = true)
      by (apply existsb_level; eauto).
    now rewrite E.
  - destruct (existsb (isLevel "error") logs) eqn:E; [discriminate |].
    destruct (existsb (isLevel "warning") logs) eqn:W; [discriminate |].
    intros _ log Hin. unfold getLogBgColor.
    destruct (String.eqb_spec (DebugLog.level log) "error") as [Hl|_].
    { assert (existsb (isLevel "error") logs = true)
        by (apply existsb_level; eauto). congruence. }
    destruct (String.eqb_spec (DebugLog.level log) "warning") as [Hl|_].
    { assert (existsb (isLevel "warning") logs = true)
        by (apply existsb_level; eauto). congruence. }
    reflexivity.
Qed.

(** One info entry and one error: one error is counted, of two entries. *)
Lemma debugSummary_consistent_witness :
  1 <= 1 <= summary_entries
              (debugSummary [Examples.sample_log "info" "started";
                             Examples.sample_log "error" "timeout"]).
Proof.
  apply (proj1 (debugSummary_consistent
                  [Examples.sample_log "info" "started";
                   Examples.sample_log "error" "timeout"]) 1).
  reflexivity.
Defined.

End DebugSummary.

(* ===================================================================== *)
(** * Further properties of [AdminSettings.tsx]                           *)
(* ===================================================================== *)

Section DecimalRoundTrip.

Lemma trimStart_string_of_uint d :
  Js.trimStart (NilEmpty.string_of_uint d) = NilEmpty.string_of_uint d.
Proof. destruct d; reflexivity. Qed.

Lemma splitSign_string_of_uint d :
  Js.splitSign (NilEmpty.string_of_uint d) = (1, NilEmpty.string_of_uint d).
Proof. destruct d; reflexivity. Qed.

Lemma splitRadix_string_of_uint d :
  Js.splitRadix (NilEmpty.string_of_uint d) = (10, NilEmpty.string_of_uint d).
Proof. destruct d as [|d|d|d|d|d|d|d|d|d|d]; try reflexivity; destruct d; reflexivity. Qed.

Lemma radixPrefix_pos d : forall p,
  Js.radixPrefix 10 (NilEmpty.string_of_uint d) (Z.pos p)
  = Z.pos (Pos.of_uint_acc d p).
Proof.
  induction d; intros p; cbn [NilEmpty.string_of_uint Pos.of_uint_acc];
    [reflexivity | ..];
    cbn [Js.radixPrefix];
    match goal with
    | |- context [Js.radixDigit 10 ?c] =>
        let v := eval vm_compute in (Js.radixDigit 10 c) in
        change (Js.radixDigit 10 c) with v
    end;
    cbv beta iota; rewrite <- IHd; f_equal; lia.
Qed.

Lemma radixPrefix_zero d :
  Js.radixPrefix 10 (NilEmpty.string_of_uint d) 0 = Z.of_N (Pos.of_uint d).
Proof.
  induction d; cbn [NilEmpty.string_of_uint Pos.of_uint];
    [reflexivity | ..];
    cbn [Js.radixPrefix];
    match goal with
    | |- context [Js.radixDigit 10 ?c] =>
        let v := eval vm_compute in (Js.radixDigit 10 c) in
        change (Js.radixDigit 10 c) with v
    end;
    cbv beta iota; [exact IHd | ..];
    cbn [Z.of_N]; rewrite <- radixPrefix_pos; f_equal.
Qed.

Lemma parseDigits_string_of_uint d :
  d <> Decimal.Nil ->
  Js.parseDigits 10 (NilEmpty.string_of_uint d) = Some (Z.of_N (Pos.of_uint d)).
Proof.
  intros Hd. rewrite <- radixPrefix_zero.
  destruct d; [congruence | ..]; reflexivity.
Qed.

Lemma parseInt_string_of_uint d :
  d <> Decimal.Nil ->
  Js.parseInt (NilEmpty.string_of_uint d) = Some (Z.of_N (Pos.of_uint d)).
Proof.
  intros Hd. unfold Js.parseInt.
  rewrite trimStart_string_of_uint, splitSign_string_of_uint,
    splitRadix_string_of_uint, parseDigits_string_of_uint by assumption.
  f_equal. lia.
Qed.

(** Parsing the decimal text of an integer gives the integer back. *)
Lemma parseInt_toString (n : Z) : Js.parseInt (Js.toString n) = Some n.
Proof.
  destruct n as [|p|p]; [reflexivity | |].
  - unfold Js.toString. cbn [Z.to_int NilEmpty.string_of_int].
    rewrite parseInt_string_of_uint by apply Unsigned.to_uint_nonnil.
    now rewrite Unsigned.of_to.
  - unfold Js.toString. cbn [Z.to_int NilEmpty.string_of_int].
    unfold Js.parseInt.
    change (Js.trimStart (String "-" (NilEmpty.string_of_uint (Pos.to_uint p))))
      with (String "-" (NilEmpty.string_of_uint (Pos.to_uint p))).
    cbn [Js.splitSign].
    rewrite splitRadix_string_of_uint, parseDigits_string_of_uint
      by apply Unsigned.to_uint_nonnil.
    rewrite Unsigned.of_to. f_equal.
Qed.

Lemma toString_truthy (n : Z) : Js.truthy_string (Js.toString n) = true.
Proof.
  pose proof (parseInt_toString n) as H.
  destruct (Js.toString n); [discriminate | reflexivity].
Qed.

End DecimalRoundTrip.

Section SettingsPage.

Import AdminSettingsPage.

Lemma trim_truthy s :
  Js.truthy_string (Js.trim s) = negb (JsText.all_space s).
Proof.
  pose proof (trim_empty s) as H.
  destruct (Js.trim s) eqn:E, (JsText.all_space s) eqn:A; cbn; try reflexivity.
  - destruct H as [H _]. now specialize (H eq_refl).
  - destruct H as [_ H]. now specialize (H eq_refl).
Qed.

(** X13.  [handleSaveApiKey] sends its request exactly when the key holds
    something else than white space, and then sends the key as it was
    typed, not trimmed; a blank key only gets the message.  After a save
    that succeeded the box is empty, so that saving again is refused;
    after one that failed the key is still in the box. *)
Theorem handleSaveApiKey_gate (st : State) (put : Api.Response unit) :
  ((exists url body,
      Do (AdminSettings.ApiPut url body) ∈ handleSaveApiKey st put)
   <-> JsText.all_space (apiKey st) = false)
  /\ (JsText.all_space (apiKey st) = false ->
      Do (AdminSettings.ApiPut "/api/admin/settings"
            [("openai_api_key", apiKey st)])
      ∈ handleSaveApiKey st put)
  /\ (JsText.all_space (apiKey st) = true ->
      handleSaveApiKey st put
      = [Do (AdminSettings.ToastError "Please enter an API key")])
  /\ (JsText.all_space (apiKey st) = false ->
      apiKey (run (handleSaveApiKey st (Api.Ok tt)) st) = ""
      /\ (forall put',
            handleSaveApiKey (run (handleSaveApiKey st (Api.Ok tt)) st) put'
            = [Do (AdminSettings.ToastError "Please enter an API key")]))
  /\ (forall detail,
        apiKey (run (handleSaveApiKey st (Api.Rejected detail)) st)
        = apiKey st).
Proof.
  unfold handleSaveApiKey. rewrite trim_truthy, negb_involutive.
  destruct (JsText.all_space (apiKey st)) eqn:A.
  - split; [split |]; [| discriminate |].
    + intros (url & body & H). apply list_elem_of_singleton in H. discriminate.
    + split; [discriminate |]. split; [reflexivity |].
      split; [discriminate |]. intros detail. destruct st; reflexivity.
  - split; [split |]; [reflexivity | |].
    + intros _. eexists _, _. apply list_elem_of_further, list_elem_of_here.
    + split; [intros _; apply list_elem_of_further, list_elem_of_here |].
      split; [discriminate |]. split.
      * intros _. split; [destruct st; reflexivity |].
        intros put'. destruct st; reflexivity.
      * intros detail. destruct st; reflexivity.
Qed.

(** A key typed between two spaces is sent with its spaces. *)
Lemma handleSaveApiKey_gate_witness :
  Do (AdminSettings.ApiPut "/api/admin/settings"
        [("openai_api_key", " sk-test ")])
  ∈ handleSaveApiKey Examples.key_typed (Api.Ok tt).
Proof.
  apply (proj1 (proj2 (handleSaveApiKey_gate Examples.key_typed (Api.Ok tt)))).
  reflexivity.
Defined.

Lemma whenPresent_absent data key setter :
  data !! key = None \/ data !! key = Some "" ->
  whenPresent data key setter = [].
Proof. unfold whenPresent. now intros [-> | ->]. Qed.

Lemma agentMaxTokens_fetch st data :
  agentMaxTokens (run (fetchSettings (Api.Ok data)) st)
  = match data !! "agent_max_tokens" with
    | Some v => if Js.truthy_string v then v else agentMaxTokens st
    | None => agentMaxTokens st
    end.
Proof.
  unfold fetchSettings, whenPresent.
  destruct (data !! "agent_max_tokens") as [a|];
    destruct (data !! "chair_max_tokens") as [c|];
    try destruct (Js.truthy_string a); try destruct (Js.truthy_string c);
    destruct st; reflexivity.
Qed.

Lemma chairMaxTokens_fetch st data :
  chairMaxTokens (run (fetchSettings (Api.Ok data)) st)
  = match data !! "chair_max_tokens" with
    | Some v => if Js.truthy_string v then v else chairMaxTokens st
    | None => chairMaxTokens st
    end.
Proof.
  unfold fetchSettings, whenPresent.
  destruct (data !! "agent_max_tokens") as [a|];
    destruct (data !! "chair_max_tokens") as [c|];
    try destruct (Js.truthy_string a); try destruct (Js.truthy_string c);
    destruct st; reflexivity.
Qed.

(** X14.  [fetchSettings] never blanks a token input: a response without
    a limit, or with an empty one, leaves that input as it stands, and an
    input that held text still holds text afterwards.  A failed fetch
    changes neither the settings nor the inputs, and no fetch touches the
    key that is being typed. *)
Theorem fetchSettings_keeps_inputs (st : State) :
  (forall data,
     (data !! "agent_max_tokens" = None \/ data !! "agent_max_tokens" = Some "") ->
     agentMaxTokens (run (fetchSettings (Api.Ok data)) st) = agentMaxTokens st)
  /\ (forall data,
        (data !! "chair_max_tokens" = None \/ data !! "chair_max_tokens" = Some "") ->
        chairMaxTokens (run (fetchSettings (Api.Ok data)) st) = chairMaxTokens st)
  /\ (forall get,
        agentMaxTokens st <> "" -> chairMaxTokens st <> "" ->
        agentMaxTokens (run (fetchSettings get) st) <> ""
        /\ chairMaxTokens (run (fetchSettings get) st) <> "")
  /\ (forall detail,
        let st' := run (fetchSettings (Api.Rejected detail)) st in
        settings st' = settings st
        /\ agentMaxTokens st' = agentMaxTokens st
        /\ chairMaxTokens st' = chairMaxTokens st)
  /\ (forall get,
        apiKey (run (fetchSettings get) st) = apiKey st
        /\ loading (run (fetchSettings get) st) = false).
Proof.
  split; [| split; [| split; [| split]]].
  - intros data H. rewrite agentMaxTokens_fetch. now destruct H as [-> | ->].
  - intros data H. rewrite chairMaxTokens_fetch. now destruct H as [-> | ->].
  - intros [data|detail] Ha Hc.
    + rewrite agentMaxTokens_fetch, chairMaxTokens_fetch. split.
      * destruct (data !! "agent_max_tokens") as [[|? ?]|]; easy.
      * destruct (data !! "chair_max_tokens") as [[|? ?]|]; easy.
    + destruct st; cbn in *. auto.
  - intros detail. destruct st; cbn. auto.
  - intros [data|detail].
    + unfold fetchSettings, whenPresent.
      destruct (data !! "agent_max_tokens") as [a|];
        destruct (data !! "chair_max_tokens") as [c|];
        try destruct (Js.truthy_string a); try destruct (Js.truthy_string c);
        destruct st; cbn; auto.
    + destruct st; cbn; auto.
Qed.

(** A settings response that only brings the agent limit. *)
Lemma fetchSettings_keeps_inputs_witness :
  chairMaxTokens
    (run (fetchSettings (Api.Ok {[ "agent_max_tokens" := "600" ]})) initial)
  = "3000".
Proof.
  apply (proj1 (proj2 (fetchSettings_keeps_inputs initial))
           {[ "agent_max_tokens" := "600" ]}).
  left. reflexivity.
Defined.

Lemma handleSaveTokenLimits_sends st put a c :
  Js.parseInt (agentMaxTokens st) = Some a ->
  Js.parseInt (chairMaxTokens st) = Some c ->
  500 <= a <= 16000 -> 500 <= c <= 16000 ->
  Do (AdminSettings.ApiPut "/api/admin/settings"
        [("agent_max_tokens", Js.toString a);
         ("chair_max_tokens", Js.toString c)])
  ∈ handleSaveTokenLimits st put.
Proof.
  intros Ha Hc Hra Hrc.
  unfold handleSaveTokenLimits, AdminSettings.handleSaveTokenLimits.
  rewrite Ha, Hc.
  assert (Eoa : AdminSettings.out_of_range (Some a) = false)
    by (apply out_of_range_within; exists a; auto).
  assert (Eoc : AdminSettings.out_of_range (Some c) = false)
    by (apply out_of_range_within; exists c; auto).
  rewrite Eoa, Eoc. cbn.
  apply list_elem_of_further, list_elem_of_here.
Qed.

(** X15.  Token limits survive the round trip through the server: when
    the form is accepted, it sends the decimal text of the two parsed
    numbers; once [fetchSettings] has brought these texts back into the
    inputs, saving again is accepted and sends the very same request. *)
Theorem saved_limits_accepted_again
    (st : State) (a c : Z) (data : gmap string string) :
  Js.parseInt (agentMaxTokens st) = Some a ->
  Js.parseInt (chairMaxTokens st) = Some c ->
  500 <= a <= 16000 -> 500 <= c <= 16000 ->
  data !! "agent_max_tokens" = Some (Js.toString a) ->
  data !! "chair_max_tokens" = Some (Js.toString c) ->
  let sent :=
    Do (AdminSettings.ApiPut "/api/admin/settings"
          [("agent_max_tokens", Js.toString a);
           ("chair_max_tokens", Js.toString c)]) in
  let st' := run (fetchSettings (Api.Ok data)) st in
  (forall put, sent ∈ handleSaveTokenLimits st put)
  /\ agentMaxTokens st' = Js.toString a
  /\ chairMaxTokens st' = Js.toString c
  /\ (forall put, sent ∈ handleSaveTokenLimits st' put).
Proof.
  intros Ha Hc Hra Hrc Hda Hdc. cbv zeta.
  assert (Ea : agentMaxTokens (run (fetchSettings (Api.Ok data)) st)
               = Js.toString a)
    by (now rewrite agentMaxTokens_fetch, Hda, toString_truthy).
  assert (Ec : chairMaxTokens (run (fetchSettings (Api.Ok data)) st)
               = Js.toString c)
    by (now rewrite chairMaxTokens_fetch, Hdc, toString_truthy).
  split; [| split; [| split]]; trivial.
  - intros put. now apply handleSaveTokenLimits_sends.
  - intros put. apply handleSaveTokenLimits_sends; trivial.
    + rewrite Ea. apply parseInt_toString.
    + rewrite Ec. apply parseInt_toString.
Qed.

(** Limits typed as [600.5] and [ 0x1F4] are sent as [600] and [500], and
    these are sent again after the settings have been fetched back. *)
Lemma saved_limits_accepted_again_witness :
  Do (AdminSettings.ApiPut "/api/admin/settings"
        [("agent_max_tokens", "600"); ("chair_max_tokens", "500")])
  ∈ handleSaveTokenLimits
      (run (fetchSettings (Api.Ok Examples.saved_settings))
           Examples.limits_typed)
      (Api.Ok tt).
Proof.
  apply (proj2 (proj2 (proj2
           (saved_limits_accepted_again
              Examples.limits_typed 600 500 Examples.saved_settings
              eq_refl eq_refl ltac:(lia) ltac:(lia) eq_refl eq_refl)))
           (Api.Ok tt)).
Defined.

End SettingsPage.

(* ===================================================================== *)
(** * Properties of [store/authStore.ts] and [api/axios.ts]               *)
(* ===================================================================== *)

Section Auth.

Import AuthStore.

Lemma after_snoc_auth item es e :
  AuthStore.after item (es ++ [e]) = AuthStore.step (AuthStore.after item es) e.
Proof. unfold AuthStore.after. now rewrite fold_left_app. Qed.

Lemma login_token_in_memory post me w : token_in_memory (login post me w).1.
Proof.
  unfold token_in_memory, login.
  destruct post as [access_token|]; [destruct me |]; cbn; try discriminate.
  reflexivity.
Qed.

Lemma step_token_in_memory w e :
  token_in_memory w -> token_in_memory (AuthStore.step w e).
Proof.
  intros Hw. destruct e as [post me | post loginPost me | | get | agents]; cbn.
  - apply login_token_in_memory.
  - unfold register. destruct post as [[]|]; cbn.
    + pose proof (login_token_in_memory loginPost me
                    (onStore (setLoading true) w)) as H.
      destruct (login loginPost me (onStore (setLoading true) w)) as [w2 o].
      exact H.
    + exact Hw.
  - unfold token_in_memory. cbn. discriminate.
  - unfold fetchUser.
    destruct (Axios.truthy (token (store w))) eqn:E; cbn; [| exact Hw].
    destruct get; unfold token_in_memory; cbn; [| discriminate].
    intros _. now apply Hw.
  - unfold updateHiredAgents. destruct (user (store w)); [| exact Hw].
    exact Hw.
Qed.

Lemma pageLoad_token_in_memory item : token_in_memory (pageLoad item).
Proof.
  unfold token_in_memory, pageLoad. cbn.
  destruct item as [p|]; cbn; [| discriminate].
  now intros ->.
Qed.

Lemma after_token_in_memory item es :
  token_in_memory (AuthStore.after item es).
Proof.
  induction es as [|e es IH] using rev_ind.
  - apply pageLoad_token_in_memory.
  - rewrite after_snoc_auth. now apply step_token_in_memory.
Qed.

(** X16.  Whenever the store holds a token, it is the token that axios
    holds in memory: this is so after a page load with any persisted
    session and after any sequence of logins, registrations, logouts,
    user fetches and agent updates.  A request that brings no
    [Authorization] header of its own then leaves with [Bearer] and that
    token, whatever the storage holds. *)
Theorem store_token_is_sent
    (item : option Persisted) (es : list Event) (t : string) :
  token (store (AuthStore.after item es)) = Some t ->
  t <> "" ->
  currentToken (AuthStore.after item es) = Some t
  /\ (forall storage,
        Axios.requestInterceptor
          (currentToken (AuthStore.after item es)) storage None
        = Some (Axios.bearer t)).
Proof.
  intros Ht Hne.
  pose proof (after_token_in_memory item es) as Hinv.
  unfold token_in_memory in Hinv. rewrite Ht in Hinv.
  assert (Htr : Js.truthy_string t = true)
    by (destruct t; [congruence | reflexivity]).
  cbn in Hinv. specialize (Hinv Htr).
  split; [exact Hinv |]. intros storage. rewrite Hinv.
  unfold Axios.requestInterceptor. cbn. now rewrite Htr.
Qed.

(** A reload with a persisted session, then a refresh of the user: the
    request leaves with the persisted token although the storage is
    unreadable by then. *)
Lemma store_token_is_sent_witness :
  Axios.requestInterceptor
    (currentToken
       (AuthStore.after (Some Examples.admin_session)
          [FetchUser (Api.Ok Examples.admin)]))
    Axios.Unreadable None
  = Some "Bearer tok-1".
Proof.
  apply (proj2 (store_token_is_sent
                  (Some Examples.admin_session)
                  [FetchUser (Api.Ok Examples.admin)] "tok-1"
                  eq_refl ltac:(discriminate))
           Axios.Unreadable).
Defined.

(** X17.  [logout] and a [login] that fails, at the login request or at
    the request for the user, leave nobody signed in: user, token and
    [isAuthenticated] are cleared in the store, the token in memory is
    cleared too, and a request without a header of its own leaves
    without one.  The failed [login] throws and lowers [isLoading]; a
    [fetchUser] without a token changes nothing. *)
Theorem logout_and_failed_login_sign_out (w : World) :
  signed_out (logout w)
  /\ (forall detail me,
        signed_out (login (Api.Rejected detail) me w).1
        /\ (login (Api.Rejected detail) me w).2 = Thrown
        /\ isLoading (store (login (Api.Rejected detail) me w).1) = false)
  /\ (forall access_token detail,
        signed_out (login (Api.Ok access_token) (Api.Rejected detail) w).1
        /\ (login (Api.Ok access_token) (Api.Rejected detail) w).2 = Thrown
        /\ isLoading
             (store (login (Api.Ok access_token) (Api.Rejected detail) w).1)
           = false)
  /\ (forall get,
        Axios.truthy (token (store w)) = false -> fetchUser get w = w).
Proof.
  unfold signed_out. split; [| split; [| split]].
  - cbn. auto.
  - intros detail me. cbn. auto 10.
  - intros access_token detail. cbn. auto 10.
  - intros get H. unfold fetchUser. now rewrite H.
Qed.

(** A freshly loaded page with nothing persisted: fetching the user does
    nothing. *)
Lemma logout_and_failed_login_sign_out_witness :
  fetchUser (Api.Ok Examples.admin) (pageLoad None) = pageLoad None.
Proof.
  apply (proj2 (proj2 (proj2
           (logout_and_failed_login_sign_out (pageLoad None))))
           (Api.Ok Examples.admin)).
  reflexivity.
Defined.

Ltac coherent_auto :=
  unfold session_coherent in *; cbn in *;
  intuition (eauto; try discriminate; try congruence).

Lemma login_coherent post me w : session_coherent (login post me w).1.
Proof.
  unfold login.
  destruct post as [access_token|]; [destruct me |]; coherent_auto.
Qed.

Lemma step_coherent w e :
  session_coherent w -> session_coherent (AuthStore.step w e).
Proof.
  intros Hw. destruct e as [post me | post loginPost me | | get | agents]; cbn.
  - apply login_coherent.
  - unfold register. destruct post as [[]|].
    + pose proof (login_coherent loginPost me
                    (onStore (setLoading true) w)) as H.
      destruct (login loginPost me (onStore (setLoading true) w)) as [w2 o].
      coherent_auto.
    + coherent_auto.
  - coherent_auto.
  - unfold fetchUser.
    destruct (Axios.truthy (token (store w))) eqn:E; [| exact Hw].
    destruct get; coherent_auto.
  - unfold updateHiredAgents. destruct (user (store w)) as [u|] eqn:Hu;
      [| exact Hw].
    coherent_auto.
Qed.

(** X18.  Starting from a page load with a coherent persisted session
    (or none), the session fields of the store stay together through any
    sequence of actions: when [isAuthenticated] is false there is neither
    token nor user, when it is true there is a user, and [isLoading] is
    lowered once an action has finished. *)
Theorem session_fields_stay_together
    (item : option Persisted) (es : list Event) :
  session_coherent (pageLoad item) ->
  session_coherent (AuthStore.after item es).
Proof.
  intros H0. induction es as [|e es IH] using rev_ind.
  - exact H0.
  - rewrite after_snoc_auth. now apply step_coherent.
Qed.

(** Nothing persisted, then a login that succeeds and an update of the
    hired agents. *)
Lemma session_fields_stay_together_witness :
  session_coherent
    (AuthStore.after None
       [Login (Api.Ok (Some "tok-1")) (Api.Ok Examples.admin);
        UpdateHiredAgents ["cfo"]]).
Proof.
  apply (session_fields_stay_together None).
  unfold session_coherent. cbn. repeat split; try discriminate; auto.
Defined.

End Auth.

(* ===================================================================== *)
(** * Properties of [OpinionCard.tsx]                                     *)
(* ===================================================================== *)

Section ExpertiseChips.

Import OpinionCard.

Lemma Qle_bool_false x y : Qle_bool x y = false -> (y <= x)%Q.
Proof.
  intros H. apply Qlt_le_weak, Qnot_le_lt. intros Hle.
  apply Qle_bool_iff in Hle. congruence.
Qed.

Lemma insert_Permutation e l : insert e l ≡ₚ e :: l.
Proof.
  induction l as [|e' l IH]; cbn; [reflexivity |].
  destruct (Qle_bool (snd e') (snd e)); [reflexivity |].
  rewrite IH. apply Permutation_swap.
Qed.

Lemma sortDescending_Permutation l : sortDescending l ≡ₚ l.
Proof.
  induction l as [|e l IH]; [reflexivity |].
  change (insert e (sortDescending l) ≡ₚ e :: l).
  now rewrite insert_Permutation, IH.
Qed.

Lemma insert_sorted e l :
  weightsDescending l -> weightsDescending (insert e l).
Proof.
  unfold weightsDescending.
  induction l as [|e' l IH]; intros Hs; cbn.
  - repeat constructor.
  - inversion Hs as [|? ? Hl Hall]; subst.
    destruct (Qle_bool (snd e') (snd e)) eqn:E.
    + apply Qle_bool_iff in E. constructor; [assumption |].
      constructor; [assumption |].
      eapply Forall_impl; [exact Hall |]. cbn. intros x Hx.
      now apply Qle_trans with (snd e').
    + apply Qle_bool_false in E. constructor; [now apply IH |].
      rewrite insert_Permutation. now constructor.
Qed.

Lemma sortDescending_sorted l : weightsDescending (sortDescending l).
Proof.
  induction l as [|e l IH]; [constructor |].
  change (weightsDescending (insert e (sortDescending l))).
  now apply insert_sorted.
Qed.

Lemma insert_head e l :
  Forall (fun x => (snd x <= snd e)%Q) l -> insert e l = e :: l.
Proof.
  destruct l as [|e' l]; [reflexivity |]. intros H.
  inversion H as [|? ? He' _]; subst. cbn.
  apply Qle_bool_iff in He'. now rewrite He'.
Qed.

Lemma sortDescending_of_sorted l :
  weightsDescending l -> sortDescending l = l.
Proof.
  unfold weightsDescending.
  induction 1 as [|e l Hs IH Hall]; [reflexivity |].
  change (insert e (sortDescending l) = e :: l).
  rewrite IH. now apply insert_head.
Qed.

Lemma descending_chips l :
  weightsDescending l -> descending (chip <$> l).
Proof.
  unfold weightsDescending, descending.
  induction 1 as [|e l Hs IH Hall]; cbn; constructor; [assumption |].
  apply Forall_fmap. exact Hall.
Qed.

(** X19.  The expertise chips of an opinion card are exactly the weights
    that exceed [0.3], each once, in non-increasing order of weight;
    weights that are equal keep the order they have in the object (chips
    whose weights already come in non-increasing order are not moved).
    The label of a chip is its key with the first underscore, and only
    the first, turned into a space. *)
Theorem chips_filtered_and_sorted (l : list (string * Q)) :
  descending (chips l)
  /\ Forall (fun c => (threshold < chip_weight c)%Q) (chips l)
  /\ (fun c => (chip_key c, chip_weight c)) <$> chips l
     ≡ₚ List.filter aboveThreshold l
  /\ (length (chips l) <= length l)%nat
  /\ (weightsDescending (List.filter aboveThreshold l) ->
      chips l = chip <$> List.filter aboveThreshold l)
  /\ Forall (fun c => chip_label c = replaceFirst "_" " " (chip_key c))
       (chips l)
  /\ (forall a b,
        occurs "_" a = false ->
        replaceFirst "_" " " (a +:+ String "_" b) = a +:+ String " " b).
Proof.
  unfold chips.
  assert (Hperm : (fun c => (chip_key c, chip_weight c))
                    <$> (chip <$> sortDescending (List.filter aboveThreshold l))
                  ≡ₚ List.filter aboveThreshold l).
  { rewrite <- list_fmap_compose.
    rewrite (list_fmap_ext _ (fun x => x) (sortDescending _))
      by (intros i [k v] _; reflexivity).
    rewrite list_fmap_id. apply sortDescending_Permutation. }
  split; [| split; [| split; [| split; [| split; [| split]]]]].
  - apply descending_chips, sortDescending_sorted.
  - apply Forall_fmap.
    rewrite sortDescending_Permutation.
    apply Forall_forall. intros e He.
    apply elem_of_filter_bool in He as [_ He].
    unfold aboveThreshold in He. apply negb_true_iff in He.
    cbn. apply Qnot_le_lt. intros Hle. apply Qle_bool_iff in Hle. congruence.
  - exact Hperm.
  - rewrite length_fmap, sortDescending_Permutation.
    apply List.filter_length_le.
  - intros Hs. now rewrite sortDescending_of_sorted.
  - apply Forall_fmap, Forall_forall. reflexivity.
  - intros a b. induction a as [|x a IH]; intros Ha; [reflexivity |].
    cbn in Ha. apply orb_false_iff in Ha as [Hx Ha].
    change (replaceFirst "_" " " (String x (a +:+ String "_" b))
            = String x (a +:+ String " " b)).
    cbn [replaceFirst]. rewrite Hx. f_equal. now apply IH.
Qed.

(** Three chips, finance first; operations and people weigh the same and
    keep the order of the object. *)
Lemma chips_filtered_and_sorted_witness :
  chip_key <$> chips (entries Examples.finance_first)
  = ["finance"; "operations"; "people_hr"].
Proof.
  rewrite (proj1 (proj2 (proj2 (proj2 (proj2
             (chips_filtered_and_sorted (entries Examples.finance_first))))))).
  - reflexivity.
  - unfold weightsDescending. cbn.
    repeat constructor; unfold Qle; cbn; lia.
Defined.

End ExpertiseChips.
